(** * NekoTools (src/extension.ts): settings view and command dispatchers

    A shallow embedding of the extension's three command handlers
    ([nekotools.toggleFeature], [nekotools.getCurrentFilePath],
    [nekotools.openInExternalTerminal]) and of the settings tree provider,
    with the editor host, the clipboard, the file system and the process
    spawner as an explicit environment and an explicit event trace. *)

From Stdlib Require Import ZArith String Ascii.
From Stdlib Require DecimalString.
From stdpp Require Import base option gmap strings list.

Local Open Scope string_scope.
Local Open Scope Z_scope.
Local Open Scope list_scope.

(** ** JavaScript values held by the configuration store *)

Module Js.

(** [config.get] is typed [any]/[T] in the source but the store can hold any
    JSON scalar; the handlers branch on truthiness and on [===]. *)
Inductive JsValue : Type :=
| JBool (b : bool)
| JStr (s : string)
| JNum (n : Z)
| JNull.

#[global] Instance JsValue_eq_dec : EqDecision JsValue.
Proof. solve_decision. Defined.

(** ToBoolean. *)
Definition truthy (v : JsValue) : bool :=
  match v with
  | JBool b => b
  | JStr s => negb (String.eqb s EmptyString)
  | JNum n => negb (n =? 0)
  | JNull => false
  end.

(** The unary [!] operator. *)
Definition not (v : JsValue) : bool := negb (truthy v).

(** [v === 'lit'] against a string literal, as the [switch] statements do. *)
Definition strict_eq_str (v : JsValue) (lit : string) : bool :=
  match v with
  | JStr s => String.eqb s lit
  | _ => false
  end.

(** The double quote character, for the shell command templates. *)
Definition dq : string := String "034"%char EmptyString.

(** *** [String.prototype.replace] with a string pattern *)

Fixpoint strip_prefix (p s : string) : option string :=
  match p with
  | EmptyString => Some s
  | String a p' =>
      match s with
      | EmptyString => None
      | String b s' => if Ascii.eqb a b then strip_prefix p' s' else None
      end
  end.

(** Split [s] at the leftmost occurrence of [pat]: the text before it and the
    text after it. *)
Fixpoint split_first (pat s : string) : option (string * string) :=
  match strip_prefix pat s with
  | Some rest => Some (EmptyString, rest)
  | None =>
      match s with
      | EmptyString => None
      | String c s' =>
          match split_first pat s' with
          | Some (before, after) => Some (String c before, after)
          | None => None
          end
      end
  end.

(** GetSubstitution for a string pattern (no captures): [$$], [$&], [$`] and
    [$'] are expanded in the replacement text, every other character,
    including a [$] followed by anything else, is copied. *)
Fixpoint GetSubstitution (matched before after replacement : string) : string :=
  match replacement with
  | EmptyString => EmptyString
  | String c r1 =>
      if Ascii.eqb c "$"%char then
        match r1 with
        | EmptyString => String c EmptyString
        | String d r2 =>
            if Ascii.eqb d "$"%char then
              String "$"%char (GetSubstitution matched before after r2)
            else if Ascii.eqb d "&"%char then
              matched +:+ GetSubstitution matched before after r2
            else if Ascii.eqb d "`"%char then
              before +:+ GetSubstitution matched before after r2
            else if Ascii.eqb d "'"%char then
              after +:+ GetSubstitution matched before after r2
            else String c (GetSubstitution matched before after r1)
        end
      else String c (GetSubstitution matched before after r1)
  end.

(** [s.replace(pat, replacement)] with both arguments strings: only the
    leftmost occurrence is rewritten. *)
Definition replace (s pat replacement : string) : string :=
  match split_first pat s with
  | None => s
  | Some (before, after) =>
      before +:+ GetSubstitution pat before after replacement +:+ after
  end.

End Js.

Import Js.

(** ** The editor host *)

(** [vscode.Uri], of which the handlers only read [fsPath]. *)
Record Uri : Type := mkUri { fsPath : string }.

#[global] Instance Uri_eq_dec : EqDecision Uri.
Proof. solve_decision. Defined.

(** [vscode.Uri.file(path)]. *)
Definition Uri_file (p : string) : Uri := mkUri p.

(** [vscode.FileType]: the bits of [stat.type] that the handlers test or that
    the sample file systems use. *)
Definition FileType_File : Z := 1.
Definition FileType_Directory : Z := 2.

(** What the handlers observe of their surroundings and cannot change. *)
Record Host : Type := mkHost {
  (** [process.platform] *)
  platform : string;
  (** [vscode.window.activeTextEditor], as its [document.uri] *)
  activeTextEditor : option Uri;
  (** [vscode.workspace.fs.stat(uri)]: [Some stat.type] when the promise is
      fulfilled, [None] when it is rejected *)
  fs_stat : Uri -> option Z;
  (** the item the user picks in an information message that offers items *)
  pick : string -> list string -> option string;
  (** the [error] that [exec] hands to its callback, as [error.message] *)
  exec_error : string -> option string;
  (** [path.dirname] *)
  dirname : string -> string
}.

(** Everything a handler does to the outside, in the order it happens. *)
Inductive Event : Type :=
| ShowWarning (msg : string)
| ShowError (msg : string)
| ShowInfo (msg : string) (items : list string)
| ClipboardWrite (text : string)
| FsStat (u : Uri)
| Exec (command : string)
| ConfigUpdateGlobal (key : string) (v : JsValue)
| TreeDataChanged
| UnhandledRejection.

#[global] Instance Event_eq_dec : EqDecision Event.
Proof. solve_decision. Defined.

(** The mutable part: the configuration section ['nekotools'], the system
    clipboard and the trace of events so far. *)
Record World : Type := mkWorld {
  config : gmap string JsValue;
  clipboard : option string;
  trace : list Event
}.

(** *** A state monad over [World] *)

Definition Cmd (A : Type) : Type := World -> A * World.

Definition ret {A} (a : A) : Cmd A := fun w => (a, w).

Definition bind {A B} (m : Cmd A) (k : A -> Cmd B) : Cmd B :=
  fun w => let (a, w') := m w in k a w'.

Declare Scope cmd_scope.
Delimit Scope cmd_scope with cmd.
Notation "x <- m ;; k" := (bind m (fun x => k))
  (at level 100, m at next level, k at level 200, right associativity) : cmd_scope.
Notation "m ;; k" := (bind m (fun _ => k))
  (at level 100, k at level 200, right associativity) : cmd_scope.
Local Open Scope cmd_scope.

Definition run (m : Cmd unit) (w : World) : World := snd (m w).

Definition emit (e : Event) : Cmd unit :=
  fun w => (tt, mkWorld (config w) (clipboard w) (trace w ++ [e])).

(** [vscode.workspace.getConfiguration('nekotools')]: a snapshot. *)
Definition getConfiguration : Cmd (gmap string JsValue) :=
  fun w => (config w, w).

(** [config.get(key, defaultValue)]. *)
Definition config_get (c : gmap string JsValue) (key : string) (defaultValue : JsValue) : JsValue :=
  match c !! key with
  | Some v => v
  | None => defaultValue
  end.

(** [config.update(key, v, ConfigurationTarget.Global)], awaited. *)
Definition config_update (key : string) (v : JsValue) : Cmd unit :=
  fun w => (tt, mkWorld (<[key := v]> (config w)) (clipboard w)
                        (trace w ++ [ConfigUpdateGlobal key v])).

Definition showWarningMessage (msg : string) : Cmd unit := emit (ShowWarning msg).
Definition showErrorMessage (msg : string) : Cmd unit := emit (ShowError msg).

(** [showInformationMessage(msg)] with no items. *)
Definition showInformationMessage (msg : string) : Cmd unit := emit (ShowInfo msg []).

(** [showInformationMessage(msg, ...items).then(selection => ...)]: the
    promise resolves to the picked item or to [undefined]. *)
Definition showInformationMessageItems (h : Host) (msg : string) (items : list string)
  : Cmd (option string) :=
  emit (ShowInfo msg items) ;; ret (pick h msg items).

(** [vscode.env.clipboard.writeText(text)]. *)
Definition clipboard_writeText (text : string) : Cmd unit :=
  fun w => (tt, mkWorld (config w) (Some text) (trace w ++ [ClipboardWrite text])).

(** [vscode.workspace.fs.stat(uri)]. *)
Definition workspace_fs_stat (h : Host) (u : Uri) : Cmd (option Z) :=
  emit (FsStat u) ;; ret (fs_stat h u).

(** ** The settings view: [NekoToolsSettingsProvider] *)

Inductive SettingType : Type := TBoolean | TEnum.

Record SettingItem : Type := mkSettingItem {
  label : string;
  key : string;
  type : SettingType;
  value : JsValue;
  description : string;
  options : option (list string)
}.

Module NekoToolsSettingsProvider.

(** [refresh()]: fires [_onDidChangeTreeData]. *)
Definition refresh : Cmd unit := emit TreeDataChanged.

(** [getSettings()], lines 55-88. *)
Definition getSettings (c : gmap string JsValue) : list SettingItem :=
  [ mkSettingItem "📄 获取文件路径" "features.getPathEnabled" TBoolean
      (config_get c "features.getPathEnabled" (JBool true))
      "启用或禁用获取文件路径功能" None;
    mkSettingItem "🖥️ 外部终端打开" "features.openTerminalEnabled" TBoolean
      (config_get c "features.openTerminalEnabled" (JBool true))
      "启用或禁用在外部终端中打开功能" None;
    mkSettingItem "🎨 显示图标" "path.showIcons" TBoolean
      (config_get c "path.showIcons" (JBool true))
      "在路径显示中显示文件/文件夹图标" None;
    mkSettingItem "📋 自动复制" "path.autoClipboard" TBoolean
      (config_get c "path.autoClipboard" (JBool false))
      "获取路径时自动复制到剪贴板" None ].

(** [getChildren(element?)]: the settings at the root, nothing below. *)
Definition getChildren (element : option SettingItem) : Cmd (list SettingItem) :=
  match element with
  | None => c <- getConfiguration ;; ret (getSettings c)
  | Some _ => ret []
  end.

End NekoToolsSettingsProvider.

(** The spec's [listSettings()]: the root query of the tree view. *)
Definition listSettings (w : World) : list SettingItem :=
  fst (NekoToolsSettingsProvider.getChildren None w).

(** ** [nekotools.toggleFeature], lines 109-115 *)

Definition toggleFeature (configKey : string) : Cmd unit :=
  c <- getConfiguration ;;
  let currentValue := config_get c configKey (JBool true) in
  config_update configKey (JBool (Js.not currentValue)) ;;
  NekoToolsSettingsProvider.refresh ;;
  showInformationMessage
    ("功能 " +:+ configKey +:+ " 已" +:+
     (if Js.not currentValue then "启用" else "禁用")).

(** ** [nekotools.getCurrentFilePath], lines 127-194 *)

(** Lines 156-168 and, again, lines 177-189: copy at once, or offer it. *)
Definition copyOrOffer (h : Host) (autoClipboard : JsValue) (filePath displayMessage : string)
  : Cmd unit :=
  if truthy autoClipboard then
    clipboard_writeText filePath ;;
    showInformationMessage (displayMessage +:+ " (已复制到剪贴板)")
  else
    selection <- showInformationMessageItems h displayMessage ["复制路径"] ;;
    if decide (selection = Some "复制路径") then
      clipboard_writeText filePath ;;
      showInformationMessage "路径已复制到剪贴板！"
    else ret tt.

Definition getCurrentFilePath (h : Host) (uri : option Uri) : Cmd unit :=
  c <- getConfiguration ;;
  let isEnabled := config_get c "features.getPathEnabled" (JBool false) in
  if Js.not isEnabled then
    showWarningMessage "获取文件路径功能已禁用，请在NekoTools设置中启用"
  else
    let showIcons := config_get c "path.showIcons" (JBool true) in
    let autoClipboard := config_get c "path.autoClipboard" (JBool true) in
    match uri with
    | Some u =>
        let filePath := fsPath u in
        st <- workspace_fs_stat h u ;;
        match st with
        | None => emit UnhandledRejection
        | Some stat_type =>
            let isDir := negb (Z.land stat_type FileType_Directory =? 0) in
            let displayMessage :=
              if isDir then
                (if truthy showIcons then "📁 文件夹路径: " +:+ filePath
                 else "文件夹路径: " +:+ filePath)
              else
                (if truthy showIcons then "📄 文件路径: " +:+ filePath
                 else "文件路径: " +:+ filePath) in
            copyOrOffer h autoClipboard filePath displayMessage
        end
    | None =>
        match activeTextEditor h with
        | Some doc =>
            let filePath := fsPath doc in
            let displayMessage :=
              if truthy showIcons then "📄 当前文件路径: " +:+ filePath
              else "当前文件路径: " +:+ filePath in
            copyOrOffer h autoClipboard filePath displayMessage
        | None => showWarningMessage "没有打开的文件或选中的文件夹"
        end
    end.

(** ** [nekotools.openInExternalTerminal], lines 197-292 *)

(** The outcome of lines 233-280: a command line, the early [return] of the
    [custom] case, or the TypeError of calling [replace] on a value that is
    not a string. *)
Inductive Built : Type :=
| Command (command : string)
| MissingCustomCommand
| ThrowTypeError.

Definition buildCommand (h : Host) (c : gmap string JsValue) (terminalPath : string) : Built :=
  if String.eqb (platform h) "win32" then
    let windowsTerminal := config_get c "terminal.windows" (JStr "wt") in
    if strict_eq_str windowsTerminal "wt" then
      Command ("wt -d " +:+ dq +:+ terminalPath +:+ dq)
    else if strict_eq_str windowsTerminal "cmd" then
      Command ("start cmd /k " +:+ dq +:+ "cd /d " +:+ dq +:+ terminalPath +:+ dq +:+ dq)
    else if strict_eq_str windowsTerminal "powershell" then
      Command ("start powershell -NoExit -Command " +:+ dq +:+
               "Set-Location '" +:+ terminalPath +:+ "'" +:+ dq)
    else
      Command ("wt -d " +:+ dq +:+ terminalPath +:+ dq +:+ " || start cmd /k " +:+
               dq +:+ "cd /d " +:+ dq +:+ terminalPath +:+ dq +:+ dq)
  else if String.eqb (platform h) "darwin" then
    Command ("open -a Terminal " +:+ dq +:+ terminalPath +:+ dq)
  else
    let linuxTerminal := config_get c "terminal.linux" (JStr "gnome-terminal") in
    let customCommand := config_get c "terminal.customCommand" (JStr EmptyString) in
    if strict_eq_str linuxTerminal "gnome-terminal" then
      Command ("gnome-terminal --working-directory=" +:+ dq +:+ terminalPath +:+ dq)
    else if strict_eq_str linuxTerminal "xterm" then
      Command ("xterm -e " +:+ dq +:+ "cd '" +:+ terminalPath +:+ "'; bash" +:+ dq)
    else if strict_eq_str linuxTerminal "konsole" then
      Command ("konsole --workdir " +:+ dq +:+ terminalPath +:+ dq)
    else if strict_eq_str linuxTerminal "custom" then
      if truthy customCommand then
        match customCommand with
        | JStr template => Command (Js.replace template "{path}" terminalPath)
        | _ => ThrowTypeError
        end
      else MissingCustomCommand
    else
      Command ("gnome-terminal --working-directory=" +:+ dq +:+ terminalPath +:+ dq +:+
               " || xterm -e " +:+ dq +:+ "cd '" +:+ terminalPath +:+ "'; bash" +:+ dq +:+
               " || konsole --workdir " +:+ dq +:+ terminalPath +:+ dq).

(** [exec(command, callback)], lines 282-288. *)
Definition exec (h : Host) (command terminalPath : string) : Cmd unit :=
  emit (Exec command) ;;
  match exec_error h command with
  | Some message => showErrorMessage ("无法打开外部终端: " +:+ message)
  | None => showInformationMessage ("已在外部终端中打开: " +:+ terminalPath)
  end.

(** Lines 223-291, once [targetPath] is known. *)
Definition openAt (h : Host) (c : gmap string JsValue) (uri : option Uri) (targetPath : string)
  : Cmd unit :=
  let fileUri := match uri with Some u => u | None => Uri_file targetPath end in
  st <- workspace_fs_stat h fileUri ;;
  match st with
  | Some stat_type =>
      let terminalPath :=
        if Z.land stat_type FileType_Directory =? 0 then dirname h targetPath
        else targetPath in
      match buildCommand h c terminalPath with
      | Command command => exec h command terminalPath
      | MissingCustomCommand => showErrorMessage "请在设置中配置自定义终端命令"
      | ThrowTypeError => emit UnhandledRejection
      end
  | None => showErrorMessage "无法访问指定的路径"
  end.

Definition openInExternalTerminal (h : Host) (uri : option Uri) : Cmd unit :=
  c <- getConfiguration ;;
  let isEnabled := config_get c "features.openTerminalEnabled" (JBool false) in
  if Js.not isEnabled then
    showWarningMessage "外部终端打开功能已禁用，请在NekoTools设置中启用"
  else
    match uri with
    | Some u => openAt h c uri (fsPath u)
    | None =>
        match activeTextEditor h with
        | Some doc => openAt h c uri (fsPath doc)
        | None => showWarningMessage "没有选中的文件或文件夹"
        end
    end.

(** ** Vocabulary of the statements *)

(** The settings of the configuration table that the view lists, with their
    declared defaults, in declaration order. *)
Definition declared_settings : list (string * bool) :=
  [ ("features.getPathEnabled", true);
    ("features.openTerminalEnabled", true);
    ("path.showIcons", true);
    ("path.autoClipboard", false) ].

Definition disabled_path_warning : string :=
  "获取文件路径功能已禁用，请在NekoTools设置中启用".

Definition disabled_terminal_warning : string :=
  "外部终端打开功能已禁用，请在NekoTools设置中启用".

Definition path_enabled (w : World) : Prop :=
  truthy (config_get (config w) "features.getPathEnabled" (JBool false)) = true.

Definition terminal_enabled (w : World) : Prop :=
  truthy (config_get (config w) "features.openTerminalEnabled" (JBool false)) = true.

(** The target of an invocation: the context reference when there is one,
    the active editor's document otherwise (lines 208-220). *)
Definition resolves (h : Host) (uri : option Uri) (target : Uri) : Prop :=
  uri = Some target \/ (uri = None /\ activeTextEditor h = Some target).

(** What [copyOrOffer] adds to the trace. *)
Definition copyOrOffer_events (h : Host) (autoClipboard : JsValue)
    (filePath displayMessage : string) : list Event :=
  if truthy autoClipboard then
    [ClipboardWrite filePath; ShowInfo (displayMessage +:+ " (已复制到剪贴板)") []]
  else
    ShowInfo displayMessage ["复制路径"] ::
    (if decide (pick h displayMessage ["复制路径"] = Some "复制路径") then
       [ClipboardWrite filePath; ShowInfo "路径已复制到剪贴板！" []]
     else []).

Definition is_FsStat (e : Event) : bool :=
  match e with FsStat _ => true | _ => false end.

(** The commands spawned in a trace. *)
Definition spawned (t : list Event) : list string :=
  omap (fun e => match e with Exec command => Some command | _ => None end) t.

(** The same host with another file system. *)
Definition with_fs_stat (h : Host) (fs' : Uri -> option Z) : Host :=
  mkHost (platform h) (activeTextEditor h) fs' (pick h) (exec_error h) (dirname h).

(** A replacement text without any dollar sign. *)
Fixpoint dollar_free (s : string) : bool :=
  match s with
  | EmptyString => true
  | String c s' => negb (Ascii.eqb c "$"%char) && dollar_free s'
  end.

(** ** Sample hosts and worlds *)

Module Samples.

(** The text before the last separator, standing in for [path.dirname] on the
    sample hosts. *)
Fixpoint cut_last (sep : ascii) (s : string) : option string :=
  match s with
  | EmptyString => None
  | String c s' =>
      match cut_last sep s' with
      | Some r => Some (String c r)
      | None => if Ascii.eqb c sep then Some EmptyString else None
      end
  end.

Definition parent (sep : ascii) (s : string) : string :=
  match cut_last sep s with
  | Some r => r
  | None => "."
  end.

(** A small file system: path to [stat.type]; a path that is not listed is
    one whose stat is rejected. *)
Definition linux_fs : gmap string Z :=
  {[ "/home/u/proj" := FileType_Directory;
     "/home/u/proj/a.ts" := FileType_File;
     "/tmp/a$$b" := FileType_Directory ]}.

Definition windows_fs : gmap string Z :=
  {[ "C:\proj" := FileType_Directory;
     "C:\proj\a.ts" := FileType_File ]}.

Definition linux (active : option Uri) : Host :=
  mkHost "linux" active (fun u => linux_fs !! fsPath u)
         (fun _ _ => None) (fun _ => None) (parent "/"%char).

Definition windows (active : option Uri) : Host :=
  mkHost "win32" active (fun u => windows_fs !! fsPath u)
         (fun _ _ => None) (fun _ => None) (parent "\"%char).

Definition world (c : gmap string JsValue) : World := mkWorld c None [].

Definition a_ts : Uri := mkUri "/home/u/proj/a.ts".
Definition proj : Uri := mkUri "/home/u/proj".
Definition gone : Uri := mkUri "/home/u/gone".
Definition dollars : Uri := mkUri "/tmp/a$$b".
Definition win_a_ts : Uri := mkUri "C:\proj\a.ts".

End Samples.

(** ** Rendering and registration *)

(** [String(v)], as [getTreeItem] applies it to a value that is not shown as a
    boolean. *)
Definition Js_String (v : JsValue) : string :=
  match v with
  | JBool true => "true"
  | JBool false => "false"
  | JStr s => s
  | JNum n => DecimalString.NilZero.string_of_int (Z.to_int n)
  | JNull => "null"
  end.

(** [vscode.Command]: what a tree item runs when it is clicked. *)
Module VsCommand.
Record t : Type := mk {
  command : string;
  title : string;
  arguments : list string
}.
End VsCommand.

(** [vscode.TreeItem], with the fields that [getTreeItem] sets. *)
Module TreeItem.
Record t : Type := mk {
  label : string;
  collapsibleState : Z;
  iconPath : option string;
  description : string;
  command : option VsCommand.t;
  tooltip : string
}.
End TreeItem.

(** [vscode.TreeItemCollapsibleState.None]. *)
Definition TreeItemCollapsibleState_None : Z := 0.

(** [getTreeItem(element)], lines 28-46; an icon is a [ThemeIcon] id. *)
Definition getTreeItem (element : SettingItem) : TreeItem.t :=
  match type element with
  | TBoolean =>
      let isEnabled := value element in
      TreeItem.mk (label element) TreeItemCollapsibleState_None
        (Some (if truthy isEnabled then "check" else "close"))
        (if truthy isEnabled then "已启用" else "已禁用")
        (Some (VsCommand.mk "nekotools.toggleFeature" "切换功能状态" [key element]))
        (description element)
  | TEnum =>
      TreeItem.mk (label element) TreeItemCollapsibleState_None
        None
        (Js_String (value element))
        None
        (description element)
  end.

(** A registered command handler, by the argument it takes. *)
Inductive Handler : Type :=
| OnNothing (f : Cmd unit)
| OnKey (f : string -> Cmd unit)
| OnUri (f : option Uri -> Cmd unit).

(** What [activate] leaves registered with the host. *)
Record Extension : Type := mkExtension {
  treeDataProviders : list string;
  subscriptions : list (string * Handler)
}.

(** [activate(context)], lines 93-295: the view id handed to
    [registerTreeDataProvider] and the commands pushed on
    [context.subscriptions], in order. The diagnostic [console.log] is not
    part of the model. *)
Definition activate (h : Host) : Extension :=
  mkExtension
    ["nekotools-settings"]
    [ ("nekotools.refreshSettings", OnNothing NekoToolsSettingsProvider.refresh);
      ("nekotools.toggleFeature", OnKey toggleFeature);
      ("nekotools.getCurrentFilePath", OnUri (getCurrentFilePath h));
      ("nekotools.openInExternalTerminal", OnUri (openInExternalTerminal h)) ].

Fixpoint find_handler (id : string) (l : list (string * Handler)) : option Handler :=
  match l with
  | [] => None
  | (id', f) :: l' => if String.eqb id id' then Some f else find_handler id l'
  end.

(** The host's reaction to a click on a tree item: it runs the item's command
    with the item's arguments. [None] stands for what the host rejects: an
    unknown command id, or arguments that do not fit the handler. *)
Definition click (ext : Extension) (item : TreeItem.t) : option (Cmd unit) :=
  match TreeItem.command item with
  | None => Some (ret tt)
  | Some c =>
      match find_handler (VsCommand.command c) (subscriptions ext) with
      | Some (OnNothing f) => Some f
      | Some (OnKey f) =>
          match VsCommand.arguments c with
          | k :: _ => Some (f k)
          | [] => None
          end
      | Some (OnUri _) => None
      | None => None
      end
  end.

(** ** More vocabulary *)

(** The text written to the clipboard, write by write. *)
Definition clipboard_writes (t : list Event) : list string :=
  omap (fun e => match e with ClipboardWrite text => Some text | _ => None end) t.

(** The same host with another [path.dirname]. *)
Definition with_dirname (h : Host) (dirname' : string -> string) : Host :=
  mkHost (platform h) (activeTextEditor h) (fs_stat h) (pick h) (exec_error h) dirname'.

(** The message of lines 150-154 for a target with a context reference. *)
Definition context_displayMessage (showIcons : JsValue) (isDir : bool) (filePath : string)
  : string :=
  if isDir then
    (if truthy showIcons then "📁 文件夹路径: " +:+ filePath else "文件夹路径: " +:+ filePath)
  else
    (if truthy showIcons then "📄 文件路径: " +:+ filePath else "文件路径: " +:+ filePath).

(** The terminal preferences and the fallbacks that [buildCommand] reads them
    with. *)
Definition terminal_defaults : list (string * string) :=
  [ ("terminal.windows", "wt");
    ("terminal.linux", "gnome-terminal");
    ("terminal.customCommand", EmptyString) ].

(** The key and value of each item, as the view shows them. *)
Definition shown (items : list SettingItem) : list (string * JsValue) :=
  map (fun it => (key it, value it)) items.

(** * Properties *)

Arguments config_get : simpl never.

(** Unfold the monadic plumbing of a handler run and project the world. *)
Ltac unfold_cmd :=
  unfold run, workspace_fs_stat, showInformationMessageItems, showWarningMessage,
    showErrorMessage, showInformationMessage, NekoToolsSettingsProvider.refresh,
    getConfiguration, config_update, clipboard_writeText, emit, bind, ret;
  cbn [fst snd config clipboard trace].

(** ** Reading the configuration store *)

Section ConfigGet.
Variables (c : gmap string JsValue) (k : string) (d : JsValue).

Lemma config_get_present v : c !! k = Some v -> config_get c k d = v.
Proof. intros E. unfold config_get. now rewrite E. Qed.

Lemma config_get_absent : c !! k = None -> config_get c k d = d.
Proof. intros E. unfold config_get. now rewrite E. Qed.

Lemma config_get_default : config_get c k d = default d (c !! k).
Proof. unfold config_get. now destruct (c !! k). Qed.

End ConfigGet.

(** ** The settings view *)

(** C3: whatever the configuration store holds, [listSettings()] returns the
    four declared settings, in declaration order, each with the store's value
    for its key, or with its declared default (true, true, true, false) when
    the key is absent. *)
Theorem listSettings_declared_order_and_values (w : World) :
  map (fun it => (key it, value it)) (listSettings w) =
  map (fun kd => (fst kd, default (JBool (snd kd)) (config w !! fst kd)))
      declared_settings.
Proof.
  unfold listSettings, NekoToolsSettingsProvider.getChildren. unfold_cmd.
  unfold NekoToolsSettingsProvider.getSettings, declared_settings.
  cbn [fst snd map key value].
  now rewrite !config_get_default.
Qed.

(** The view is recomputed from the store alone, and querying it leaves the
    world as it was. *)
Lemma getChildren_pure (w : World) :
  snd (NekoToolsSettingsProvider.getChildren None w) = w.
Proof. reflexivity. Qed.

Lemma listSettings_store_only (w w' : World) :
  config w = config w' -> listSettings w = listSettings w'.
Proof.
  unfold listSettings, NekoToolsSettingsProvider.getChildren. unfold_cmd.
  now intros ->.
Qed.

(** ** Toggling *)

Lemma toggleFeature_run (k : string) (w : World) :
  run (toggleFeature k) w =
  let v := Js.not (config_get (config w) k (JBool true)) in
  mkWorld (<[k := JBool v]> (config w)) (clipboard w)
          (trace w ++ [ConfigUpdateGlobal k (JBool v); TreeDataChanged;
                       ShowInfo ("功能 " +:+ k +:+ " 已" +:+ (if v then "启用" else "禁用")) []]).
Proof.
  unfold toggleFeature. unfold_cmd. now rewrite <- !app_assoc.
Qed.

(** C4: on a key that holds a boolean, or that is absent and so reads as
    true, one [toggle] stores the negation and a second [toggle] stores the
    original value again. *)
Theorem toggleFeature_involution (w : World) (k : string) (b : bool) :
  config w !! k = Some (JBool b) \/ (config w !! k = None /\ b = true) ->
  config_get (config w) k (JBool true) = JBool b /\
  config (run (toggleFeature k) w) !! k = Some (JBool (negb b)) /\
  config (run (toggleFeature k) (run (toggleFeature k) w)) !! k = Some (JBool b).
Proof.
  intros H.
  assert (E : config_get (config w) k (JBool true) = JBool b).
  { destruct H as [H | [H ->]].
    - now apply config_get_present.
    - now apply config_get_absent. }
  split; [exact E |].
  rewrite !toggleFeature_run. cbn [config]. rewrite E.
  unfold Js.not. cbn [truthy].
  split.
  - apply lookup_insert_eq.
  - erewrite config_get_present by apply lookup_insert_eq.
    cbn [truthy]. rewrite negb_involutive. apply lookup_insert_eq.
Qed.

(** A boolean key is restored exactly: after two toggles the store itself is
    the one the handler started from. *)
Lemma toggleFeature_twice_store (w : World) (k : string) (b : bool) :
  config w !! k = Some (JBool b) ->
  config (run (toggleFeature k) (run (toggleFeature k) w)) = config w.
Proof.
  intros H. rewrite !toggleFeature_run. cbn [config].
  rewrite (config_get_present _ _ _ _ H).
  erewrite config_get_present by apply lookup_insert_eq.
  unfold Js.not. cbn [truthy]. rewrite negb_involutive.
  rewrite insert_insert_eq. now apply insert_id.
Qed.

(** Toggling touches no other key. *)
Lemma toggleFeature_other_key (w : World) (k k' : string) :
  k <> k' -> config (run (toggleFeature k) w) !! k' = config w !! k'.
Proof.
  intros Hne. rewrite toggleFeature_run. cbn [config].
  now apply lookup_insert_ne.
Qed.

(** ** The path command *)

Section CopyOrOffer.
Variables (h : Host) (auto : JsValue) (p msg : string) (w : World).

Lemma copyOrOffer_trace :
  trace (snd (copyOrOffer h auto p msg w)) = trace w ++ copyOrOffer_events h auto p msg.
Proof.
  unfold copyOrOffer, copyOrOffer_events. unfold_cmd.
  destruct (truthy auto); cbn [snd trace].
  - now rewrite <- app_assoc.
  - destruct (decide _); cbn [snd trace]; [now rewrite <- !app_assoc | reflexivity].
Qed.

Lemma copyOrOffer_config : config (snd (copyOrOffer h auto p msg w)) = config w.
Proof.
  unfold copyOrOffer. unfold_cmd.
  destruct (truthy auto); cbn [snd config]; [reflexivity |].
  now destruct (decide _).
Qed.

(** The clipboard is written in the automatic mode, and in the other mode
    only when the user picks the copy item. *)
Lemma copyOrOffer_clipboard :
  clipboard (snd (copyOrOffer h auto p msg w)) =
  if truthy auto then Some p
  else if decide (pick h msg ["复制路径"] = Some "复制路径") then Some p
       else clipboard w.
Proof.
  unfold copyOrOffer. unfold_cmd.
  destruct (truthy auto); cbn [snd clipboard]; [reflexivity |].
  now destruct (decide _).
Qed.

End CopyOrOffer.

(** C5: with [features.getPathEnabled] set to false the path command, called
    with a context reference or without one, shows the disabled warning and
    does nothing else: no file system query, no clipboard write, no other
    notification, and the store is as before. *)
Theorem getCurrentFilePath_disabled (h : Host) (uri : option Uri) (w : World) :
  config w !! "features.getPathEnabled" = Some (JBool false) ->
  run (getCurrentFilePath h uri) w =
  mkWorld (config w) (clipboard w) (trace w ++ [ShowWarning disabled_path_warning]).
Proof.
  intros H. unfold getCurrentFilePath. unfold_cmd.
  now rewrite (config_get_present _ _ (JBool false) _ H).
Qed.

(** The same outcome when the key is absent: the fallback of line 129. *)
Lemma getCurrentFilePath_flag_absent (h : Host) (uri : option Uri) (w : World) :
  config w !! "features.getPathEnabled" = None ->
  run (getCurrentFilePath h uri) w =
  mkWorld (config w) (clipboard w) (trace w ++ [ShowWarning disabled_path_warning]).
Proof.
  intros H. unfold getCurrentFilePath. unfold_cmd.
  now rewrite (config_get_absent _ _ (JBool false) H).
Qed.

Section PathEnabled.
Variables (h : Host) (w : World).
Hypothesis enabled : path_enabled w.

Let showIcons := config_get (config w) "path.showIcons" (JBool true).
Let autoClipboard := config_get (config w) "path.autoClipboard" (JBool true).

(** With a context reference whose stat is fulfilled: lines 142-169. *)
Lemma getCurrentFilePath_context_run (u : Uri) (ty : Z) :
  fs_stat h u = Some ty ->
  run (getCurrentFilePath h (Some u)) w =
  snd (copyOrOffer h autoClipboard (fsPath u)
         (if negb (Z.land ty FileType_Directory =? 0) then
            (if truthy showIcons
             then "📁 文件夹路径: " +:+ fsPath u else "文件夹路径: " +:+ fsPath u)
          else
            (if truthy showIcons
             then "📄 文件路径: " +:+ fsPath u else "文件路径: " +:+ fsPath u))
         (mkWorld (config w) (clipboard w) (trace w ++ [FsStat u]))).
Proof.
  intros Hs. unfold getCurrentFilePath. unfold_cmd.
  unfold Js.not. rewrite enabled. cbn [negb]. now rewrite Hs.
Qed.

(** With a context reference whose stat is rejected: the promise chain of
    lines 145-149 has no rejection handler. *)
Lemma getCurrentFilePath_context_rejected (u : Uri) :
  fs_stat h u = None ->
  run (getCurrentFilePath h (Some u)) w =
  mkWorld (config w) (clipboard w) (trace w ++ [FsStat u; UnhandledRejection]).
Proof.
  intros Hs. unfold getCurrentFilePath. unfold_cmd.
  unfold Js.not. rewrite enabled. cbn [negb]. rewrite Hs.
  cbn [snd config clipboard trace]. now rewrite <- app_assoc.
Qed.

(** Without a context reference, an editor being active: lines 172-189. *)
Lemma getCurrentFilePath_palette_run (doc : Uri) :
  activeTextEditor h = Some doc ->
  run (getCurrentFilePath h None) w =
  snd (copyOrOffer h autoClipboard (fsPath doc)
         (if truthy showIcons then "📄 当前文件路径: " +:+ fsPath doc
          else "当前文件路径: " +:+ fsPath doc) w).
Proof.
  intros Ha. unfold getCurrentFilePath. unfold_cmd.
  unfold Js.not. rewrite enabled, Ha. reflexivity.
Qed.

(** With [path.autoClipboard] absent the command copies at once: the
    fallback of line 137 is true. *)
Lemma getCurrentFilePath_autoClipboard_absent (u : Uri) (ty : Z) :
  config w !! "path.autoClipboard" = None ->
  fs_stat h u = Some ty ->
  clipboard (run (getCurrentFilePath h (Some u)) w) = Some (fsPath u).
Proof.
  intros Ha Hs.
  rewrite (getCurrentFilePath_context_run u ty Hs), copyOrOffer_clipboard.
  subst autoClipboard. now rewrite (config_get_absent _ _ (JBool true) Ha).
Qed.

End PathEnabled.

(** C9: called without a context reference while an editor is active, the
    path command never queries the file system, whatever the active
    document's path denotes, and always uses the current-file message
    (with or without the page glyph), never a folder message. *)
Theorem getCurrentFilePath_palette_no_stat (h : Host) (doc : Uri) (w : World) :
  path_enabled w ->
  activeTextEditor h = Some doc ->
  let msg := (if truthy (config_get (config w) "path.showIcons" (JBool true))
              then "📄 当前文件路径: " else "当前文件路径: ") +:+ fsPath doc in
  let added := copyOrOffer_events h (config_get (config w) "path.autoClipboard" (JBool true))
                 (fsPath doc) msg in
  trace (run (getCurrentFilePath h None) w) = trace w ++ added /\
  forallb (fun e => negb (is_FsStat e)) added = true /\
  forall fs', run (getCurrentFilePath (with_fs_stat h fs') None) w
              = run (getCurrentFilePath h None) w.
Proof.
  intros He Ha msg added.
  assert (Em : msg = if truthy (config_get (config w) "path.showIcons" (JBool true))
                     then "📄 当前文件路径: " +:+ fsPath doc
                     else "当前文件路径: " +:+ fsPath doc).
  { subst msg. now destruct (truthy (config_get _ "path.showIcons" _)). }
  split; [| split].
  - rewrite (getCurrentFilePath_palette_run h w He doc Ha), <- Em.
    apply copyOrOffer_trace.
  - subst added. unfold copyOrOffer_events.
    destruct (truthy (config_get _ "path.autoClipboard" _)); [reflexivity |].
    now destruct (decide _).
  - intros fs'.
    rewrite (getCurrentFilePath_palette_run h w He doc Ha).
    now rewrite (getCurrentFilePath_palette_run (with_fs_stat h fs') w He doc Ha).
Qed.

(** ** The terminal command *)

(** The same early exit when the key is absent: the fallback of line 199. *)
Lemma openInExternalTerminal_flag_absent (h : Host) (uri : option Uri) (w : World) :
  config w !! "features.openTerminalEnabled" = None ->
  run (openInExternalTerminal h uri) w =
  mkWorld (config w) (clipboard w) (trace w ++ [ShowWarning disabled_terminal_warning]).
Proof.
  intros H. unfold openInExternalTerminal. unfold_cmd.
  now rewrite (config_get_absent _ _ (JBool false) H).
Qed.

Lemma Uri_file_fsPath (u : Uri) : Uri_file (fsPath u) = u.
Proof. now destruct u. Qed.

Lemma spawned_app (t1 t2 : list Event) : spawned (t1 ++ t2) = spawned t1 ++ spawned t2.
Proof. apply omap_app. Qed.

Lemma buildCommand_windows_cmd (h : Host) (c : gmap string JsValue) (terminalPath : string) :
  platform h = "win32" ->
  c !! "terminal.windows" = Some (JStr "cmd") ->
  buildCommand h c terminalPath =
  Command ("start cmd /k " +:+ dq +:+ "cd /d " +:+ dq +:+ terminalPath +:+ dq +:+ dq).
Proof.
  intros Hp Hc. unfold buildCommand. rewrite Hp.
  now rewrite (config_get_present _ _ _ _ Hc).
Qed.

Lemma buildCommand_custom_empty (h : Host) (c : gmap string JsValue) (terminalPath : string) :
  platform h = "linux" ->
  c !! "terminal.linux" = Some (JStr "custom") ->
  c !! "terminal.customCommand" = Some (JStr EmptyString) ->
  buildCommand h c terminalPath = MissingCustomCommand.
Proof.
  intros Hp Hl Hc. unfold buildCommand. rewrite Hp.
  now rewrite (config_get_present _ _ _ _ Hl), (config_get_present _ _ _ _ Hc).
Qed.

Section Terminal.
Variables (h : Host) (uri : option Uri) (target : Uri) (w : World).
Hypothesis enabled : terminal_enabled w.
Hypothesis resolved : resolves h uri target.

(** Lines 197-221: past the feature check and the target resolution. *)
Lemma openInExternalTerminal_resolved :
  run (openInExternalTerminal h uri) w =
  snd (openAt h (config w) (Some target) (fsPath target) w).
Proof.
  unfold openInExternalTerminal. unfold_cmd. unfold Js.not.
  rewrite enabled. cbn [negb].
  destruct resolved as [-> | [-> Ha]]; [reflexivity |].
  rewrite Ha. unfold openAt. now rewrite Uri_file_fsPath.
Qed.

(** The stat promise rejected: lines 289-291. *)
Lemma openInExternalTerminal_stat_rejected :
  fs_stat h target = None ->
  run (openInExternalTerminal h uri) w =
  mkWorld (config w) (clipboard w)
          (trace w ++ [FsStat target; ShowError "无法访问指定的路径"]).
Proof.
  intros Hs. rewrite openInExternalTerminal_resolved.
  unfold openAt. unfold_cmd. rewrite Hs.
  cbn [snd config clipboard trace]. now rewrite <- app_assoc.
Qed.

(** The stat promise fulfilled: lines 224-288. *)
Lemma openInExternalTerminal_stat_fulfilled (ty : Z) :
  fs_stat h target = Some ty ->
  let terminalPath :=
    if Z.land ty FileType_Directory =? 0 then dirname h (fsPath target)
    else fsPath target in
  run (openInExternalTerminal h uri) w =
  mkWorld (config w) (clipboard w)
    (trace w ++ FsStat target ::
       match buildCommand h (config w) terminalPath with
       | Command command =>
           [Exec command;
            match exec_error h command with
            | Some message => ShowError ("无法打开外部终端: " +:+ message)
            | None => ShowInfo ("已在外部终端中打开: " +:+ terminalPath) []
            end]
       | MissingCustomCommand => [ShowError "请在设置中配置自定义终端命令"]
       | ThrowTypeError => [UnhandledRejection]
       end).
Proof.
  intros Hs terminalPath. rewrite openInExternalTerminal_resolved.
  unfold openAt. unfold_cmd. rewrite Hs. fold terminalPath.
  destruct (buildCommand h (config w) terminalPath) as [cmd | |];
    unfold exec; unfold_cmd; rewrite <- ?app_assoc; try reflexivity.
  destruct (exec_error h cmd); cbn [snd config clipboard trace];
    now rewrite <- ?app_assoc.
Qed.

(** C6: on Windows with [terminal.windows] set to cmd, for a target that the
    stat classifies as not a directory, the command handed to [exec] is
    exactly [start cmd /k], a quote, [cd /d], the parent directory between
    quotes, and a closing quote, where the parent directory is the
    [path.dirname] of the target path; it is the only command spawned. *)
Theorem openInExternalTerminal_windows_cmd_file (ty : Z) :
  platform h = "win32" ->
  config w !! "terminal.windows" = Some (JStr "cmd") ->
  fs_stat h target = Some ty ->
  Z.land ty FileType_Directory = 0 ->
  let parentDir := dirname h (fsPath target) in
  let command :=
    "start cmd /k " +:+ dq +:+ "cd /d " +:+ dq +:+ parentDir +:+ dq +:+ dq in
  buildCommand h (config w) parentDir = Command command /\
  spawned (trace (run (openInExternalTerminal h uri) w)) =
    spawned (trace w) ++ [command] /\
  exists outcome,
    trace (run (openInExternalTerminal h uri) w) =
    trace w ++ [FsStat target; Exec command; outcome].
Proof.
  intros Hp Hc Hs Hf parentDir command.
  pose proof (buildCommand_windows_cmd h (config w) parentDir Hp Hc) as Hb.
  split; [exact Hb |].
  rewrite (openInExternalTerminal_stat_fulfilled ty Hs).
  rewrite Hf. cbn [Z.eqb]. fold parentDir. rewrite Hb. fold command.
  cbn [trace]. split.
  - rewrite spawned_app. f_equal. cbn. now destruct (exec_error h command).
  - eexists. reflexivity.
Qed.

(** C7: on Linux with [terminal.linux] set to custom and an empty
    [terminal.customCommand], the terminal command (feature enabled, target
    resolved and stat fulfilled) shows the missing-configuration error and
    hands nothing to [exec]. *)
Theorem openInExternalTerminal_custom_missing (ty : Z) :
  platform h = "linux" ->
  config w !! "terminal.linux" = Some (JStr "custom") ->
  config w !! "terminal.customCommand" = Some (JStr EmptyString) ->
  fs_stat h target = Some ty ->
  run (openInExternalTerminal h uri) w =
  mkWorld (config w) (clipboard w)
          (trace w ++ [FsStat target; ShowError "请在设置中配置自定义终端命令"]) /\
  spawned (trace (run (openInExternalTerminal h uri) w)) = spawned (trace w).
Proof.
  intros Hp Hl Hc Hs.
  rewrite (openInExternalTerminal_stat_fulfilled ty Hs).
  rewrite (buildCommand_custom_empty h (config w) _ Hp Hl Hc).
  split; [reflexivity |].
  cbn [trace]. rewrite spawned_app. cbn. apply app_nil_r.
Qed.

(** C8: when the file system type query of the terminal command fails, the
    handler shows the error notification and stops: nothing is handed to
    [exec], and clipboard and configuration store are as before. *)
Theorem openInExternalTerminal_stat_failure :
  fs_stat h target = None ->
  run (openInExternalTerminal h uri) w =
  mkWorld (config w) (clipboard w)
          (trace w ++ [FsStat target; ShowError "无法访问指定的路径"]) /\
  spawned (trace (run (openInExternalTerminal h uri) w)) = spawned (trace w).
Proof.
  intros Hs. rewrite (openInExternalTerminal_stat_rejected Hs).
  split; [reflexivity |].
  cbn [trace]. rewrite spawned_app. cbn. apply app_nil_r.
Qed.

End Terminal.

(** ** [replace] rewrites the leftmost occurrence only *)

Lemma append_nil (s : string) : EmptyString +:+ s = s.
Proof. reflexivity. Qed.

Lemma append_cons (c : ascii) (s t : string) : String c s +:+ t = String c (s +:+ t).
Proof. reflexivity. Qed.

Lemma strip_prefix_Some (p s r : string) :
  strip_prefix p s = Some r <-> s = p +:+ r.
Proof.
  revert s. induction p as [| a p IH]; intros s; cbn.
  - split; [now intros [= ->] | now intros ->].
  - destruct s as [| b s]; [split; discriminate |].
    destruct (Ascii.eqb_spec a b) as [-> | Hne].
    + rewrite IH, append_cons. split; [now intros -> | now intros [= ->]].
    + rewrite append_cons. split; [discriminate | intros [= <- _]; now destruct Hne].
Qed.

Lemma split_first_Some (pat s before after : string) :
  split_first pat s = Some (before, after) -> s = before +:+ pat +:+ after.
Proof.
  revert before. induction s as [| c s IH]; intros before; cbn.
  - destruct (strip_prefix pat EmptyString) as [r |] eqn:E; [| discriminate].
    intros [= <- <-]. apply strip_prefix_Some in E. exact E.
  - destruct (strip_prefix pat (String c s)) as [r |] eqn:E.
    + intros [= <- <-]. apply strip_prefix_Some in E. exact E.
    + destruct (split_first pat s) as [[b a] |]; [| discriminate].
      intros [= <- <-]. rewrite append_cons. f_equal. now apply IH.
Qed.

(** No occurrence of the pattern starts to the left of the one found. *)
Lemma split_first_leftmost (pat s before after : string) :
  split_first pat s = Some (before, after) ->
  forall b' a', s = b' +:+ pat +:+ a' -> (String.length before <= String.length b')%nat.
Proof.
  revert before. induction s as [| c s IH]; intros before; cbn.
  - destruct (strip_prefix pat EmptyString); [| discriminate].
    intros [= <- <-] b' a' _. cbn. lia.
  - destruct (strip_prefix pat (String c s)) as [r |] eqn:E.
    + intros [= <- <-] b' a' _. cbn. lia.
    + destruct (split_first pat s) as [[b a] |]; [| discriminate].
      intros [= <- <-] b' a' Hs.
      destruct b' as [| c' b'].
      * rewrite append_nil in Hs. apply strip_prefix_Some in Hs. congruence.
      * rewrite append_cons in Hs. injection Hs as _ Hs. cbn.
        apply le_n_S. now apply (IH b eq_refl b' a').
Qed.

Lemma split_first_None (pat s : string) :
  split_first pat s = None -> forall b a, s <> b +:+ pat +:+ a.
Proof.
  induction s as [| c s IH]; cbn.
  - destruct (strip_prefix pat EmptyString) eqn:E; [discriminate |].
    intros _ b a Hs. destruct b; [| discriminate].
    rewrite append_nil in Hs. apply strip_prefix_Some in Hs. congruence.
  - destruct (strip_prefix pat (String c s)) eqn:E; [discriminate |].
    destruct (split_first pat s) as [[b0 a0] |]; [discriminate |].
    intros _ b a Hs. destruct b as [| c' b].
    + rewrite append_nil in Hs. apply strip_prefix_Some in Hs. congruence.
    + rewrite append_cons in Hs. injection Hs as _ Hs. now apply (IH eq_refl b a).
Qed.

Lemma GetSubstitution_dollar_free (matched before after r : string) :
  dollar_free r = true -> GetSubstitution matched before after r = r.
Proof.
  induction r as [| c r IH]; cbn; [reflexivity |].
  intros H. apply andb_prop in H as [Hc Hr].
  destruct (Ascii.eqb c "$"%char); [discriminate |].
  now rewrite IH.
Qed.

Lemma replace_leftmost (s pat r before after : string) :
  dollar_free r = true ->
  split_first pat s = Some (before, after) ->
  Js.replace s pat r = before +:+ r +:+ after.
Proof.
  intros Hr Hs. unfold Js.replace. rewrite Hs.
  now rewrite GetSubstitution_dollar_free.
Qed.

Lemma replace_no_occurrence (s pat r : string) :
  split_first pat s = None -> Js.replace s pat r = s.
Proof. intros Hs. unfold Js.replace. now rewrite Hs. Qed.

(** The custom template on Linux, for a directory without dollar signs: the
    directory takes the place of the leftmost [{path}] and the rest of the
    template, later placeholders included, is kept as it is. *)
Lemma buildCommand_custom_leftmost
    (h : Host) (c : gmap string JsValue) (template before after dir : string) :
  platform h = "linux" ->
  c !! "terminal.linux" = Some (JStr "custom") ->
  c !! "terminal.customCommand" = Some (JStr template) ->
  split_first "{path}" template = Some (before, after) ->
  dollar_free dir = true ->
  template = before +:+ "{path}" +:+ after /\
  buildCommand h c dir = Command (before +:+ dir +:+ after).
Proof.
  intros Hp Hl Hc Hs Hd.
  split; [now apply split_first_Some |].
  unfold buildCommand. rewrite Hp.
  rewrite (config_get_present _ _ _ _ Hl), (config_get_present _ _ _ _ Hc).
  cbn [String.eqb Ascii.eqb Bool.eqb strict_eq_str].
  assert (Ht : truthy (JStr template) = true).
  { apply split_first_Some in Hs. subst template. now destruct before. }
  rewrite Ht. now rewrite (replace_leftmost _ _ _ _ _ Hd Hs).
Qed.

(** ** The handlers at the inputs where code and specification part *)

(** C1, at the empty store: the settings view lists both feature flags as
    true, yet the path command and the terminal command, which read the same
    keys with the fallback false (lines 129 and 199), show their disabled
    warnings and stop. *)
Theorem feature_flags_absent_dispatchers_stop :
  let w := Samples.world ∅ in
  let h := Samples.linux None in
  map (fun it => (key it, value it)) (take 2 (listSettings w)) =
    [("features.getPathEnabled", JBool true); ("features.openTerminalEnabled", JBool true)] /\
  run (getCurrentFilePath h (Some Samples.a_ts)) w =
    mkWorld ∅ None [ShowWarning disabled_path_warning] /\
  run (openInExternalTerminal h (Some Samples.a_ts)) w =
    mkWorld ∅ None [ShowWarning disabled_terminal_warning].
Proof.
  intros w h. split; [reflexivity |]. split.
  - now rewrite getCurrentFilePath_flag_absent.
  - now rewrite openInExternalTerminal_flag_absent.
Qed.

(** C2, at a store that enables the feature and says nothing about
    [path.autoClipboard]: the settings view lists automatic copying as false,
    yet the path command writes the clipboard at once and shows a message
    without any item to pick. *)
Theorem autoClipboard_absent_copies_at_once :
  let w := Samples.world {[ "features.getPathEnabled" := JBool true ]} in
  let h := Samples.linux None in
  map (fun it => (key it, value it)) (drop 3 (listSettings w)) =
    [("path.autoClipboard", JBool false)] /\
  run (getCurrentFilePath h (Some Samples.a_ts)) w =
    mkWorld (config w) (Some "/home/u/proj/a.ts")
      [FsStat Samples.a_ts;
       ClipboardWrite "/home/u/proj/a.ts";
       ShowInfo "📄 文件路径: /home/u/proj/a.ts (已复制到剪贴板)" []].
Proof.
  intros w h. split; reflexivity.
Qed.

(** C10, at a directory whose name holds two dollar signs: the text put in
    place of the placeholder is not the resolved directory, because
    [replace] expands dollar patterns in its replacement text. *)
Theorem custom_template_dollar_directory :
  let w := Samples.world {[ "features.openTerminalEnabled" := JBool true;
                            "terminal.linux" := JStr "custom";
                            "terminal.customCommand" := JStr "xterm -e {path}" ]} in
  let h := Samples.linux None in
  trace (run (openInExternalTerminal h (Some Samples.dollars)) w) =
    [FsStat Samples.dollars;
     Exec "xterm -e /tmp/a$b";
     ShowInfo "已在外部终端中打开: /tmp/a$$b" []] /\
  "xterm -e /tmp/a$b" <> "xterm -e " +:+ fsPath Samples.dollars.
Proof.
  intros w h. split; [reflexivity | discriminate].
Qed.

(** The custom template with two placeholders and a plain directory: only
    the first one is filled in. *)
Example custom_template_two_placeholders :
  buildCommand (Samples.linux None)
    {[ "terminal.linux" := JStr "custom";
       "terminal.customCommand" := JStr "xterm -e 'cd {path}; ls {path}'" ]}
    "/home/u/proj" = Command "xterm -e 'cd /home/u/proj; ls {path}'".
Proof. reflexivity. Qed.

(** The path command with a context reference that can no longer be
    queried: the rejection is not handled. *)
Example getCurrentFilePath_gone :
  trace (run (getCurrentFilePath (Samples.linux None) (Some Samples.gone))
             (Samples.world {[ "features.getPathEnabled" := JBool true ]})) =
  [FsStat Samples.gone; UnhandledRejection].
Proof. reflexivity. Qed.

(** ** Instances on the sample hosts *)

(** Two toggles of a key at which the store holds false. *)
Lemma toggleFeature_involution_witness :
  let w := Samples.world {[ "path.showIcons" := JBool false ]} in
  config_get (config w) "path.showIcons" (JBool true) = JBool false /\
  config (run (toggleFeature "path.showIcons") w) !! "path.showIcons" = Some (JBool true) /\
  config (run (toggleFeature "path.showIcons") (run (toggleFeature "path.showIcons") w))
    !! "path.showIcons" = Some (JBool false).
Proof.
  intros w.
  apply (toggleFeature_involution w "path.showIcons" false).
  left. reflexivity.
Defined.

(** The disabled path command called from the explorer context menu. *)
Lemma getCurrentFilePath_disabled_witness :
  let w := Samples.world {[ "features.getPathEnabled" := JBool false ]} in
  run (getCurrentFilePath (Samples.linux None) (Some Samples.a_ts)) w =
  mkWorld (config w) None [ShowWarning disabled_path_warning].
Proof.
  intros w.
  apply (getCurrentFilePath_disabled (Samples.linux None) (Some Samples.a_ts) w).
  reflexivity.
Defined.

(** The path command from the command palette, the active document's path
    being a directory of the sample file system. *)
Lemma getCurrentFilePath_palette_no_stat_witness :
  let w := Samples.world {[ "features.getPathEnabled" := JBool true;
                            "path.autoClipboard" := JBool false ]} in
  let h := Samples.linux (Some Samples.proj) in
  fs_stat h Samples.proj = Some FileType_Directory /\
  trace (run (getCurrentFilePath h None) w) =
    [ShowInfo "📄 当前文件路径: /home/u/proj" ["复制路径"]].
Proof.
  intros w h. split; [reflexivity |].
  apply (getCurrentFilePath_palette_no_stat h Samples.proj w); reflexivity.
Defined.

(** The terminal command on a file of the sample Windows file system. *)
Lemma openInExternalTerminal_windows_cmd_file_witness :
  let w := Samples.world {[ "features.openTerminalEnabled" := JBool true;
                            "terminal.windows" := JStr "cmd" ]} in
  let h := Samples.windows None in
  let command :=
    "start cmd /k " +:+ dq +:+ "cd /d " +:+ dq +:+ "C:\proj" +:+ dq +:+ dq in
  buildCommand h (config w) "C:\proj" = Command command /\
  spawned (trace (run (openInExternalTerminal h (Some Samples.win_a_ts)) w)) = [command] /\
  exists outcome,
    trace (run (openInExternalTerminal h (Some Samples.win_a_ts)) w) =
    [FsStat Samples.win_a_ts; Exec command; outcome].
Proof.
  intros w h command.
  apply (openInExternalTerminal_windows_cmd_file h (Some Samples.win_a_ts)
           Samples.win_a_ts w) with (ty := FileType_File).
  - reflexivity.
  - left. reflexivity.
  - reflexivity.
  - reflexivity.
  - reflexivity.
  - reflexivity.
Defined.

(** The custom terminal without a template, from the command palette. *)
Lemma openInExternalTerminal_custom_missing_witness :
  let w := Samples.world {[ "features.openTerminalEnabled" := JBool true;
                            "terminal.linux" := JStr "custom";
                            "terminal.customCommand" := JStr EmptyString ]} in
  let h := Samples.linux (Some Samples.a_ts) in
  run (openInExternalTerminal h None) w =
    mkWorld (config w) None
      [FsStat Samples.a_ts; ShowError "请在设置中配置自定义终端命令"] /\
  spawned (trace (run (openInExternalTerminal h None) w)) = [].
Proof.
  intros w h.
  apply (openInExternalTerminal_custom_missing h None Samples.a_ts w)
    with (ty := FileType_File).
  - reflexivity.
  - right. split; reflexivity.
  - reflexivity.
  - reflexivity.
  - reflexivity.
  - reflexivity.
Defined.

(** The terminal command on a path that no longer exists. *)
Lemma openInExternalTerminal_stat_failure_witness :
  let w := Samples.world {[ "features.openTerminalEnabled" := JBool true ]} in
  let h := Samples.linux None in
  run (openInExternalTerminal h (Some Samples.gone)) w =
    mkWorld (config w) None [FsStat Samples.gone; ShowError "无法访问指定的路径"] /\
  spawned (trace (run (openInExternalTerminal h (Some Samples.gone)) w)) = [].
Proof.
  intros w h.
  apply (openInExternalTerminal_stat_failure h (Some Samples.gone) Samples.gone w).
  - reflexivity.
  - left. reflexivity.
  - reflexivity.
Defined.

(** * Further properties of the handlers *)

Lemma config_get_insert (c : gmap string JsValue) (k k' : string) (v d : JsValue) :
  config_get (<[k := v]> c) k' d = if decide (k = k') then v else config_get c k' d.
Proof.
  unfold config_get. rewrite lookup_insert. now destruct (decide (k = k')).
Qed.

(** ** [toggleFeature] on arbitrary stores *)

(** Whatever the key holds, a toggle stores a boolean, the negation of the
    truthiness of what was read; from then on toggling is an involution, so
    three toggles leave the store that one toggle leaves. *)
Theorem toggleFeature_normalises (w : World) (k : string) :
  let t := run (toggleFeature k) in
  config (t w) !! k =
    Some (JBool (negb (truthy (config_get (config w) k (JBool true))))) /\
  config (t (t (t w))) = config (t w).
Proof.
  intros t. subst t. split.
  - rewrite toggleFeature_run. cbn [config]. apply lookup_insert_eq.
  - apply (toggleFeature_twice_store (run (toggleFeature k) w) k
             (negb (truthy (config_get (config w) k (JBool true))))).
    rewrite toggleFeature_run. cbn [config]. apply lookup_insert_eq.
Qed.

(** A toggle changes one key only: every other key, the clipboard and the
    spawned commands are as before. *)
Theorem toggleFeature_frame (w : World) (k k' : string) :
  k <> k' ->
  config (run (toggleFeature k) w) !! k' = config w !! k' /\
  clipboard (run (toggleFeature k) w) = clipboard w /\
  spawned (trace (run (toggleFeature k) w)) = spawned (trace w).
Proof.
  intros Hne. split; [now apply toggleFeature_other_key |].
  rewrite toggleFeature_run. cbn [clipboard trace]. split; [reflexivity |].
  rewrite spawned_app. cbn. apply app_nil_r.
Qed.

(** ** Clicking an item of the settings view *)

Lemma listSettings_shown (w : World) :
  shown (listSettings w) =
  [ ("features.getPathEnabled", config_get (config w) "features.getPathEnabled" (JBool true));
    ("features.openTerminalEnabled",
       config_get (config w) "features.openTerminalEnabled" (JBool true));
    ("path.showIcons", config_get (config w) "path.showIcons" (JBool true));
    ("path.autoClipboard", config_get (config w) "path.autoClipboard" (JBool false)) ].
Proof. reflexivity. Qed.

Lemma listSettings_elem (w : World) (it : SettingItem) :
  it ∈ listSettings w ->
  type it = TBoolean /\
  ((key it = "features.getPathEnabled" \/ key it = "features.openTerminalEnabled" \/
    key it = "path.showIcons") /\ value it = config_get (config w) (key it) (JBool true)
   \/ key it = "path.autoClipboard" /\ value it = config_get (config w) (key it) (JBool false)).
Proof.
  unfold listSettings, NekoToolsSettingsProvider.getChildren. unfold_cmd.
  unfold NekoToolsSettingsProvider.getSettings.
  rewrite !elem_of_cons, elem_of_nil.
  intros [-> | [-> | [-> | [-> | []]]]]; cbn [type key value];
    (split; [reflexivity |]); auto 6.
Qed.

Lemma click_listed_runs_toggle (h : Host) (w : World) (it : SettingItem) :
  it ∈ listSettings w ->
  click (activate h) (getTreeItem it) = Some (toggleFeature (key it)).
Proof.
  intros Hin. destruct (listSettings_elem w it Hin) as [Ht _].
  unfold getTreeItem. now rewrite Ht.
Qed.

(** Every item of the view is rendered as a leaf with the check or the close
    icon by the truthiness of its value, and carries the toggle command with
    its own key, so that a click on it runs [toggleFeature] on that key. *)
Theorem click_listed_item_toggles_its_key (h : Host) (w : World) (it : SettingItem) :
  it ∈ listSettings w ->
  TreeItem.command (getTreeItem it) =
    Some (VsCommand.mk "nekotools.toggleFeature" "切换功能状态" [key it]) /\
  TreeItem.iconPath (getTreeItem it) =
    Some (if truthy (value it) then "check" else "close") /\
  click (activate h) (getTreeItem it) = Some (toggleFeature (key it)).
Proof.
  intros Hin. destruct (listSettings_elem w it Hin) as [Ht _].
  unfold getTreeItem. rewrite Ht. cbn [TreeItem.command TreeItem.iconPath].
  split; [reflexivity |]. split; reflexivity.
Qed.

(** A click on an item whose key the store holds, or whose fallback in the
    view is true, flips what the view shows for that item and nothing else:
    afterwards the item shows the negated truthiness of what it showed, and
    the other items show what they showed. *)
Theorem click_flips_shown_value (h : Host) (w : World) (it : SettingItem) :
  it ∈ listSettings w ->
  is_Some (config w !! key it) \/ key it <> "path.autoClipboard" ->
  exists m,
    click (activate h) (getTreeItem it) = Some m /\
    shown (listSettings (run m w)) =
    map (fun kv => if decide (fst kv = key it)
                   then (fst kv, JBool (negb (truthy (snd kv))))
                   else kv)
        (shown (listSettings w)).
Proof.
  intros Hin Hk. exists (toggleFeature (key it)).
  split; [now apply (click_listed_runs_toggle h w it) |].
  destruct (listSettings_elem w it Hin) as [_ Hcase].
  assert (Hread : config_get (config w) (key it) (JBool true) = value it).
  { destruct Hcase as [[_ Hv] | [Hkey Hv]]; [now rewrite Hv |].
    destruct Hk as [[v Hs] | Hne]; [| now destruct Hne].
    rewrite Hv. now rewrite !(config_get_present _ _ _ _ Hs). }
  rewrite !listSettings_shown, toggleFeature_run. cbn [config map fst snd].
  rewrite !config_get_insert, Hread. unfold Js.not.
  destruct Hcase as [[[Hkey | [Hkey | Hkey]] Hv] | [Hkey Hv]];
    rewrite Hkey in *; rewrite <- Hv; reflexivity.
Qed.

(** The one item for which a click need not flip the view: with
    [path.autoClipboard] unset the view shows false (fallback of line 84),
    the toggle reads true (fallback of line 111) and stores false, and the
    view shows what it showed. *)
Theorem click_unset_autoClipboard_keeps_shown (w : World) :
  config w !! "path.autoClipboard" = None ->
  let w' := run (toggleFeature "path.autoClipboard") w in
  config w' !! "path.autoClipboard" = Some (JBool false) /\
  shown (listSettings w') = shown (listSettings w) /\
  last (trace w') = Some (ShowInfo "功能 path.autoClipboard 已禁用" []).
Proof.
  intros Ha w'. subst w'. rewrite toggleFeature_run.
  rewrite (config_get_absent _ _ (JBool true) Ha). cbn [config trace].
  split; [apply lookup_insert_eq |]. split.
  - rewrite !listSettings_shown. cbn [config].
    rewrite !config_get_insert, (config_get_absent _ _ (JBool false) Ha).
    reflexivity.
  - rewrite last_app. reflexivity.
Qed.

(** ** The path command on every input *)

Lemma clipboard_writes_app (t1 t2 : list Event) :
  clipboard_writes (t1 ++ t2) = clipboard_writes t1 ++ clipboard_writes t2.
Proof. apply omap_app. Qed.

Lemma World_eta (w : World) : mkWorld (config w) (clipboard w) (trace w ++ []) = w.
Proof. destruct w. cbn. now rewrite app_nil_r. Qed.

Lemma getCurrentFilePath_not_enabled (h : Host) (uri : option Uri) (w : World) :
  truthy (config_get (config w) "features.getPathEnabled" (JBool false)) = false ->
  run (getCurrentFilePath h uri) w =
  mkWorld (config w) (clipboard w) (trace w ++ [ShowWarning disabled_path_warning]).
Proof.
  intros H. unfold getCurrentFilePath. unfold_cmd. unfold Js.not. now rewrite H.
Qed.

Lemma getCurrentFilePath_no_target_run (h : Host) (w : World) :
  path_enabled w ->
  activeTextEditor h = None ->
  run (getCurrentFilePath h None) w =
  mkWorld (config w) (clipboard w)
          (trace w ++ [ShowWarning "没有打开的文件或选中的文件夹"]).
Proof.
  intros He Ha. unfold getCurrentFilePath. unfold_cmd. unfold Js.not.
  now rewrite He, Ha.
Qed.

(** The four ways a run of the path command can go. *)
Lemma getCurrentFilePath_shape (h : Host) (uri : option Uri) (w : World) :
  (exists msg, run (getCurrentFilePath h uri) w =
               mkWorld (config w) (clipboard w) (trace w ++ [ShowWarning msg])) \/
  (exists u, uri = Some u /\
             run (getCurrentFilePath h uri) w =
             mkWorld (config w) (clipboard w) (trace w ++ [FsStat u; UnhandledRejection])) \/
  (exists target pre auto msg,
      resolves h uri target /\
      (pre = [] \/ pre = [FsStat target]) /\
      run (getCurrentFilePath h uri) w =
      snd (copyOrOffer h auto (fsPath target) msg
             (mkWorld (config w) (clipboard w) (trace w ++ pre)))).
Proof.
  destruct (truthy (config_get (config w) "features.getPathEnabled" (JBool false))) eqn:He.
  - destruct uri as [u |].
    + destruct (fs_stat h u) as [ty |] eqn:Hs.
      * right. right. exists u, [FsStat u]. do 2 eexists.
        split; [now left |]. split; [now right |].
        apply (getCurrentFilePath_context_run h w He u ty Hs).
      * right. left. exists u. split; [reflexivity |].
        apply (getCurrentFilePath_context_rejected h w He u Hs).
    + destruct (activeTextEditor h) as [doc |] eqn:Ha.
      * right. right. exists doc, []. do 2 eexists.
        split; [right; now split |]. split; [now left |].
        rewrite World_eta.
        apply (getCurrentFilePath_palette_run h w He doc Ha).
      * left. eexists. apply (getCurrentFilePath_no_target_run h w He Ha).
  - left. eexists. apply (getCurrentFilePath_not_enabled h uri w He).
Qed.

Lemma copyOrOffer_events_spawned h auto p msg :
  spawned (copyOrOffer_events h auto p msg) = [].
Proof.
  unfold copyOrOffer_events. destruct (truthy auto); [reflexivity |].
  now destruct (decide _).
Qed.

(** The path command never changes the configuration store and never spawns
    a process, on any input. *)
Theorem getCurrentFilePath_frame (h : Host) (uri : option Uri) (w : World) :
  config (run (getCurrentFilePath h uri) w) = config w /\
  spawned (trace (run (getCurrentFilePath h uri) w)) = spawned (trace w).
Proof.
  destruct (getCurrentFilePath_shape h uri w)
    as [[msg ->] | [[u [_ ->]] | [target [pre [auto [msg [_ [Hpre ->]]]]]]]].
  - cbn [config trace]. split; [reflexivity |].
    rewrite spawned_app. cbn. apply app_nil_r.
  - cbn [config trace]. split; [reflexivity |].
    rewrite spawned_app. cbn. apply app_nil_r.
  - rewrite copyOrOffer_config, copyOrOffer_trace. cbn [config trace].
    split; [reflexivity |].
    rewrite !spawned_app, copyOrOffer_events_spawned, app_nil_r.
    destruct Hpre as [-> | ->]; cbn; apply app_nil_r.
Qed.

(** The path command writes the clipboard at most once, and then with the
    path of the target it resolved, which is what the clipboard holds
    afterwards; otherwise the clipboard is as before. *)
Theorem getCurrentFilePath_writes_only_target (h : Host) (uri : option Uri) (w : World) :
  let r := run (getCurrentFilePath h uri) w in
  (clipboard_writes (trace r) = clipboard_writes (trace w) /\ clipboard r = clipboard w) \/
  (exists target,
      resolves h uri target /\
      clipboard_writes (trace r) = clipboard_writes (trace w) ++ [fsPath target] /\
      clipboard r = Some (fsPath target)).
Proof.
  intros r. subst r.
  destruct (getCurrentFilePath_shape h uri w)
    as [[msg ->] | [[u [_ ->]] | [target [pre [auto [msg [Hres [Hpre ->]]]]]]]].
  - left. cbn [clipboard trace]. rewrite clipboard_writes_app. cbn.
    now rewrite app_nil_r.
  - left. cbn [clipboard trace]. rewrite clipboard_writes_app. cbn.
    now rewrite app_nil_r.
  - rewrite copyOrOffer_clipboard, copyOrOffer_trace. cbn [clipboard trace].
    rewrite !clipboard_writes_app.
    assert (Hp : clipboard_writes pre = []) by (destruct Hpre as [-> | ->]; reflexivity).
    rewrite Hp, app_nil_r. unfold copyOrOffer_events.
    destruct (truthy auto).
    + right. exists target. now repeat split.
    + destruct (decide _).
      * right. exists target. now repeat split.
      * left. cbn. now rewrite app_nil_r.
Qed.

(** *** File or folder *)

Lemma land_Directory (ty : Z) :
  (Z.land ty FileType_Directory =? 0) = negb (Z.testbit ty 1).
Proof.
  assert (E : Z.land ty 2 = if Z.testbit ty 1 then 2 else 0).
  { apply Z.bits_inj'. intros n Hn. rewrite Z.land_spec.
    change 2 with (2 ^ 1) at 1. rewrite Z.pow2_bits_eqb by lia.
    destruct (Z.eqb_spec 1 n) as [<- | Hne].
    - rewrite andb_true_r. now destruct (Z.testbit ty 1).
    - rewrite andb_false_r. destruct (Z.testbit ty 1).
      + change 2 with (2 ^ 1). now rewrite Z.pow2_bits_false.
      + now rewrite Z.bits_0. }
  unfold FileType_Directory. rewrite E. now destruct (Z.testbit ty 1).
Qed.

Lemma getCurrentFilePath_context_trace
    (h : Host) (u : Uri) (w : World) (ty : Z) :
  path_enabled w ->
  fs_stat h u = Some ty ->
  trace (run (getCurrentFilePath h (Some u)) w) =
  trace w ++ FsStat u ::
    copyOrOffer_events h (config_get (config w) "path.autoClipboard" (JBool true))
      (fsPath u)
      (context_displayMessage (config_get (config w) "path.showIcons" (JBool true))
         (Z.testbit ty 1) (fsPath u)).
Proof.
  intros He Hs.
  rewrite (getCurrentFilePath_context_run h w He u ty Hs), copyOrOffer_trace.
  cbn [trace]. rewrite <- app_assoc. cbn [app].
  unfold context_displayMessage. now rewrite land_Directory, negb_involutive.
Qed.

(** With a context reference whose stat is fulfilled, the path command
    queries the file system once and words its message by the Directory bit
    of the stat type alone: any type with that bit, a symbolic link to a
    directory included, gets the folder message, any other the file
    message; two stat types that agree on the bit give the same run. *)
Theorem getCurrentFilePath_classifies_by_directory_bit
    (h : Host) (u : Uri) (w : World) (ty : Z) :
  path_enabled w ->
  fs_stat h u = Some ty ->
  trace (run (getCurrentFilePath h (Some u)) w) =
    trace w ++ FsStat u ::
      copyOrOffer_events h (config_get (config w) "path.autoClipboard" (JBool true))
        (fsPath u)
        (context_displayMessage (config_get (config w) "path.showIcons" (JBool true))
           (Z.testbit ty 1) (fsPath u)) /\
  forall ty', Z.testbit ty' 1 = Z.testbit ty 1 ->
    run (getCurrentFilePath (with_fs_stat h (fun _ => Some ty')) (Some u)) w =
    run (getCurrentFilePath h (Some u)) w.
Proof.
  intros He Hs. split; [now apply getCurrentFilePath_context_trace |].
  intros ty' Hbit.
  rewrite (getCurrentFilePath_context_run h w He u ty Hs).
  rewrite (getCurrentFilePath_context_run (with_fs_stat h (fun _ => Some ty')) w He u ty'
             eq_refl).
  now rewrite !land_Directory, Hbit.
Qed.

(** The two modes of the path command when [path.autoClipboard] holds a
    boolean: true copies at once and shows one message without items; false
    shows the message with the copy item and writes the clipboard only if
    that item is picked. *)
Theorem getCurrentFilePath_copy_policy
    (h : Host) (u : Uri) (w : World) (ty : Z) (b : bool) :
  path_enabled w ->
  config w !! "path.autoClipboard" = Some (JBool b) ->
  fs_stat h u = Some ty ->
  let msg := context_displayMessage (config_get (config w) "path.showIcons" (JBool true))
               (Z.testbit ty 1) (fsPath u) in
  let picked := bool_decide (pick h msg ["复制路径"] = Some "复制路径") in
  let r := run (getCurrentFilePath h (Some u)) w in
  trace r =
    trace w ++ FsStat u ::
      (if b then [ClipboardWrite (fsPath u); ShowInfo (msg +:+ " (已复制到剪贴板)") []]
       else ShowInfo msg ["复制路径"] ::
            (if picked then [ClipboardWrite (fsPath u); ShowInfo "路径已复制到剪贴板！" []]
             else [])) /\
  clipboard r = if b || picked then Some (fsPath u) else clipboard w.
Proof.
  intros He Ha Hs msg picked r. subst r. split.
  - rewrite (getCurrentFilePath_context_trace h u w ty He Hs).
    rewrite (config_get_present _ _ (JBool true) _ Ha).
    unfold copyOrOffer_events. cbn [truthy]. fold msg.
    destruct b; [reflexivity |]. subst picked.
    now destruct (decide _) as [Hp | Hp];
      [rewrite (bool_decide_eq_true_2 _ Hp) | rewrite (bool_decide_eq_false_2 _ Hp)].
  - rewrite (getCurrentFilePath_context_run h w He u ty Hs), copyOrOffer_clipboard.
    rewrite (config_get_present _ _ (JBool true) _ Ha). cbn [truthy clipboard].
    destruct b; [reflexivity |]. cbn [orb].
    rewrite land_Directory, negb_involutive.
    fold (context_displayMessage (config_get (config w) "path.showIcons" (JBool true))
            (Z.testbit ty 1) (fsPath u)).
    fold msg. subst picked.
    now destruct (decide _) as [Hp | Hp];
      [rewrite (bool_decide_eq_true_2 _ Hp) | rewrite (bool_decide_eq_false_2 _ Hp)].
Qed.

(** ** The terminal command on every input *)

Lemma openInExternalTerminal_not_enabled (h : Host) (uri : option Uri) (w : World) :
  truthy (config_get (config w) "features.openTerminalEnabled" (JBool false)) = false ->
  run (openInExternalTerminal h uri) w =
  mkWorld (config w) (clipboard w) (trace w ++ [ShowWarning disabled_terminal_warning]).
Proof.
  intros H. unfold openInExternalTerminal. unfold_cmd. unfold Js.not. now rewrite H.
Qed.

Lemma openInExternalTerminal_no_target (h : Host) (w : World) :
  terminal_enabled w ->
  activeTextEditor h = None ->
  run (openInExternalTerminal h None) w =
  mkWorld (config w) (clipboard w) (trace w ++ [ShowWarning "没有选中的文件或文件夹"]).
Proof.
  intros He Ha. unfold openInExternalTerminal. unfold_cmd. unfold Js.not.
  now rewrite He, Ha.
Qed.

(** Both feature flags gate on truthiness: a key that is absent or holds
    false, zero, the empty string or null stops its command at the disabled
    warning, before anything else happens. *)
Theorem commands_gated_on_truthiness (h : Host) (uri : option Uri) (w : World) :
  (truthy (config_get (config w) "features.getPathEnabled" (JBool false)) = false ->
   run (getCurrentFilePath h uri) w =
   mkWorld (config w) (clipboard w) (trace w ++ [ShowWarning disabled_path_warning])) /\
  (truthy (config_get (config w) "features.openTerminalEnabled" (JBool false)) = false ->
   run (openInExternalTerminal h uri) w =
   mkWorld (config w) (clipboard w) (trace w ++ [ShowWarning disabled_terminal_warning])).
Proof.
  split.
  - apply getCurrentFilePath_not_enabled.
  - apply openInExternalTerminal_not_enabled.
Qed.

(** Without a context reference and without an active editor both commands,
    when enabled, show their no-target warning and stop: no file system
    query, no clipboard write, no process. *)
Theorem commands_without_target_warn (h : Host) (w : World) :
  activeTextEditor h = None ->
  (path_enabled w ->
   run (getCurrentFilePath h None) w =
   mkWorld (config w) (clipboard w)
           (trace w ++ [ShowWarning "没有打开的文件或选中的文件夹"])) /\
  (terminal_enabled w ->
   run (openInExternalTerminal h None) w =
   mkWorld (config w) (clipboard w) (trace w ++ [ShowWarning "没有选中的文件或文件夹"])).
Proof.
  intros Ha. split; intros He.
  - now apply getCurrentFilePath_no_target_run.
  - now apply openInExternalTerminal_no_target.
Qed.

(** With a context reference whose stat is rejected the path command reports
    nothing: the rejection has no handler, no notification is shown and the
    clipboard is as before. *)
Theorem getCurrentFilePath_rejected_stat_unreported (h : Host) (u : Uri) (w : World) :
  path_enabled w ->
  fs_stat h u = None ->
  run (getCurrentFilePath h (Some u)) w =
  mkWorld (config w) (clipboard w) (trace w ++ [FsStat u; UnhandledRejection]).
Proof.
  intros He Hs. now apply getCurrentFilePath_context_rejected.
Qed.

(** The terminal command never writes the clipboard or the configuration
    store, and spawns at most one command per invocation. *)
Theorem openInExternalTerminal_frame (h : Host) (uri : option Uri) (w : World) :
  let r := run (openInExternalTerminal h uri) w in
  config r = config w /\
  clipboard r = clipboard w /\
  exists commands,
    spawned (trace r) = spawned (trace w) ++ commands /\ (length commands <= 1)%nat.
Proof.
  intros r. subst r.
  destruct (truthy (config_get (config w) "features.openTerminalEnabled" (JBool false)))
    eqn:He.
  - assert (Hres : (exists target, resolves h uri target) \/
                   (uri = None /\ activeTextEditor h = None)).
    { destruct uri as [u |]; [left; exists u; now left |].
      destruct (activeTextEditor h) as [doc |] eqn:Ha;
        [left; exists doc; right; now split | now right]. }
    destruct Hres as [[target Hres] | [-> Ha]].
    + destruct (fs_stat h target) as [ty |] eqn:Hs.
      * rewrite (openInExternalTerminal_stat_fulfilled h uri target w He Hres ty Hs).
        cbn [config clipboard trace]. do 2 (split; [reflexivity |]).
        rewrite spawned_app.
        destruct (buildCommand h (config w) _) as [cmd | |].
        -- exists [cmd]. split; [| cbn; lia]. f_equal. cbn.
           now destruct (exec_error h cmd).
        -- exists []. split; [reflexivity | cbn; lia].
        -- exists []. split; [reflexivity | cbn; lia].
      * rewrite (openInExternalTerminal_stat_rejected h uri target w He Hres Hs).
        cbn [config clipboard trace]. do 2 (split; [reflexivity |]).
        exists []. rewrite spawned_app. split; [reflexivity | cbn; lia].
    + rewrite (openInExternalTerminal_no_target h w He Ha).
      cbn [config clipboard trace]. do 2 (split; [reflexivity |]).
      exists []. rewrite spawned_app. split; [reflexivity | cbn; lia].
  - rewrite (openInExternalTerminal_not_enabled h uri w He).
    cbn [config clipboard trace]. do 2 (split; [reflexivity |]).
    exists []. rewrite spawned_app. split; [reflexivity | cbn; lia].
Qed.

(** A target with the Directory bit is opened itself: [path.dirname] plays no
    part, and what is spawned is the command built for the target's own
    path. *)
Theorem openInExternalTerminal_directory_opens_itself
    (h : Host) (uri : option Uri) (target : Uri) (w : World) (ty : Z) :
  terminal_enabled w ->
  resolves h uri target ->
  fs_stat h target = Some ty ->
  Z.testbit ty 1 = true ->
  spawned (trace (run (openInExternalTerminal h uri) w)) =
    spawned (trace w) ++
    match buildCommand h (config w) (fsPath target) with
    | Command command => [command]
    | _ => []
    end /\
  forall dirname',
    run (openInExternalTerminal (with_dirname h dirname') uri) w =
    run (openInExternalTerminal h uri) w.
Proof.
  intros He Hres Hs Hbit.
  assert (Hl : (Z.land ty FileType_Directory =? 0) = false)
    by now rewrite land_Directory, Hbit.
  split.
  - rewrite (openInExternalTerminal_stat_fulfilled h uri target w He Hres ty Hs).
    rewrite Hl. cbn [trace]. rewrite spawned_app. f_equal.
    destruct (buildCommand h (config w) (fsPath target)) as [cmd | |]; cbn;
      [now destruct (exec_error h cmd) | reflexivity | reflexivity].
  - intros dirname'.
    rewrite (openInExternalTerminal_stat_fulfilled h uri target w He Hres ty Hs).
    rewrite (openInExternalTerminal_stat_fulfilled (with_dirname h dirname') uri target w
               He Hres ty Hs).
    now rewrite Hl.
Qed.

(** ** Building the command line *)

(** An unset terminal preference behaves as the same preference set to its
    fallback: wt on Windows, gnome-terminal on Linux, no custom template. *)
Theorem buildCommand_unset_as_default
    (h : Host) (c : gmap string JsValue) (terminalPath k d : string) :
  (k, d) ∈ terminal_defaults ->
  c !! k = None ->
  buildCommand h (<[k := JStr d]> c) terminalPath = buildCommand h c terminalPath.
Proof.
  unfold terminal_defaults. rewrite !elem_of_cons, elem_of_nil.
  intros [[= -> ->] | [[= -> ->] | [[= -> ->] | []]]] Hk;
    unfold buildCommand; rewrite !config_get_insert;
    repeat (match goal with
            | |- context [decide (?a = ?b)] =>
                destruct (decide (a = b)) as [Heq | _]; [try discriminate Heq | ]
            end);
    now rewrite ?(config_get_absent _ _ _ Hk).
Qed.

(** The only way to get no command line at all is the custom terminal on a
    platform other than Windows and macOS: a falsy template gives the
    configuration error, a truthy value that is not a string makes the call
    of [replace] throw. *)
Theorem buildCommand_fails_only_for_custom
    (h : Host) (c : gmap string JsValue) (terminalPath : string) :
  let linux_custom :=
    platform h <> "win32" /\ platform h <> "darwin" /\
    config_get c "terminal.linux" (JStr "gnome-terminal") = JStr "custom" in
  let customCommand := config_get c "terminal.customCommand" (JStr EmptyString) in
  (buildCommand h c terminalPath = MissingCustomCommand <->
     linux_custom /\ truthy customCommand = false) /\
  (buildCommand h c terminalPath = ThrowTypeError <->
     linux_custom /\ truthy customCommand = true /\ forall s, customCommand <> JStr s).
Proof.
  intros linux_custom customCommand. subst linux_custom customCommand.
  unfold buildCommand.
  destruct (String.eqb_spec (platform h) "win32") as [Hw | Hw].
  { destruct (config_get c "terminal.windows" (JStr "wt")) as [| s | |]; cbn [strict_eq_str];
      repeat match goal with |- context [String.eqb ?a ?b] => destruct (String.eqb a b) end;
      split; split; try discriminate; intros [[? _] _]; contradiction. }
  destruct (String.eqb_spec (platform h) "darwin") as [Hd | Hd].
  { split; split; try discriminate; intros [[_ [? _]] _]; contradiction. }
  destruct (config_get c "terminal.linux" (JStr "gnome-terminal")) as [b | s | n |];
    cbn [strict_eq_str];
    try (split; split; [discriminate | intros [[_ [_ [=]]] _]
                       | discriminate | intros [[_ [_ [=]]] _]]).
  destruct (String.eqb_spec s "gnome-terminal") as [-> | _].
  { split; split; try discriminate; now intros [[_ [_ [=]]] _]. }
  destruct (String.eqb_spec s "xterm") as [-> | _].
  { split; split; try discriminate; now intros [[_ [_ [=]]] _]. }
  destruct (String.eqb_spec s "konsole") as [-> | _].
  { split; split; try discriminate; now intros [[_ [_ [=]]] _]. }
  destruct (String.eqb_spec s "custom") as [-> | Hne].
  - destruct (config_get c "terminal.customCommand" (JStr EmptyString)) as [b | t | n |];
      destruct (truthy _) eqn:Ht; split; split; try discriminate;
      try (intros _; repeat split; (assumption || discriminate));
      try (now intros [_ [=]]); try (now intros [_ [[=] _]]).
    intros [_ [_ Hs]]. now destruct (Hs t).
  - split; split; try discriminate; intros [[_ [_ [= ->]]] _]; now destruct Hne.
Qed.

(** A custom template without the placeholder is spawned as it is: the
    directory does not enter the command at all. *)
Theorem buildCommand_custom_without_placeholder
    (h : Host) (c : gmap string JsValue) (template terminalPath : string) :
  platform h <> "win32" ->
  platform h <> "darwin" ->
  c !! "terminal.linux" = Some (JStr "custom") ->
  c !! "terminal.customCommand" = Some (JStr template) ->
  template <> EmptyString ->
  (forall before after, template <> before +:+ "{path}" +:+ after) ->
  buildCommand h c terminalPath = Command template.
Proof.
  intros Hw Hd Hl Hc Hne Hno. unfold buildCommand.
  destruct (String.eqb_spec (platform h) "win32"); [contradiction |].
  destruct (String.eqb_spec (platform h) "darwin"); [contradiction |].
  rewrite (config_get_present _ _ _ _ Hl), (config_get_present _ _ _ _ Hc).
  cbn [strict_eq_str String.eqb Ascii.eqb Bool.eqb truthy].
  destruct (String.eqb_spec template EmptyString); [contradiction |]. cbn [negb].
  rewrite replace_no_occurrence; [reflexivity |].
  destruct (split_first "{path}" template) as [[b a] |] eqn:Hs; [| reflexivity].
  apply split_first_Some in Hs. now destruct (Hno b a).
Qed.

(** A custom template with placeholders and a directory without dollar signs:
    the directory takes the place of the leftmost placeholder, and what
    follows it in the template, later placeholders included, is kept. *)
Theorem buildCommand_custom_fills_leftmost
    (h : Host) (c : gmap string JsValue) (template before after dir : string) :
  platform h = "linux" ->
  c !! "terminal.linux" = Some (JStr "custom") ->
  c !! "terminal.customCommand" = Some (JStr template) ->
  split_first "{path}" template = Some (before, after) ->
  dollar_free dir = true ->
  template = before +:+ "{path}" +:+ after /\
  (forall b' a', template = b' +:+ "{path}" +:+ a' ->
                 (String.length before <= String.length b')%nat) /\
  buildCommand h c dir = Command (before +:+ dir +:+ after).
Proof.
  intros Hp Hl Hc Hs Hd.
  destruct (buildCommand_custom_leftmost h c template before after dir Hp Hl Hc Hs Hd)
    as [Ht Hb].
  split; [exact Ht |]. split; [| exact Hb].
  now apply split_first_leftmost with (after := after).
Qed.

(** ** Further instances on sample hosts *)

(** A toggle of one key, seen from another key that the store holds. *)
Lemma toggleFeature_frame_witness :
  let w := mkWorld {[ "path.showIcons" := JBool false; "terminal.linux" := JStr "xterm" ]}
                   (Some "kept") [Exec "xterm"] in
  config (run (toggleFeature "path.showIcons") w) !! "terminal.linux" = Some (JStr "xterm") /\
  clipboard (run (toggleFeature "path.showIcons") w) = Some "kept" /\
  spawned (trace (run (toggleFeature "path.showIcons") w)) = ["xterm"].
Proof.
  intros w.
  apply (toggleFeature_frame w "path.showIcons" "terminal.linux").
  discriminate.
Defined.

(** The first item of the view over the empty store. *)
Lemma click_listed_item_toggles_its_key_witness :
  let w := Samples.world ∅ in
  let it := mkSettingItem "📄 获取文件路径" "features.getPathEnabled" TBoolean (JBool true)
              "启用或禁用获取文件路径功能" None in
  TreeItem.command (getTreeItem it) =
    Some (VsCommand.mk "nekotools.toggleFeature" "切换功能状态" ["features.getPathEnabled"]) /\
  TreeItem.iconPath (getTreeItem it) = Some "check" /\
  click (activate (Samples.linux None)) (getTreeItem it) =
    Some (toggleFeature "features.getPathEnabled").
Proof.
  intros w it.
  apply (click_listed_item_toggles_its_key (Samples.linux None) w it).
  apply list_elem_of_here.
Defined.

(** A click on the icons item of a store that holds a string there. *)
Lemma click_flips_shown_value_witness :
  let w := Samples.world {[ "path.showIcons" := JStr "yes" ]} in
  let it := mkSettingItem "🎨 显示图标" "path.showIcons" TBoolean (JStr "yes")
              "在路径显示中显示文件/文件夹图标" None in
  exists m,
    click (activate (Samples.linux None)) (getTreeItem it) = Some m /\
    shown (listSettings (run m w)) =
    [ ("features.getPathEnabled", JBool true);
      ("features.openTerminalEnabled", JBool true);
      ("path.showIcons", JBool false);
      ("path.autoClipboard", JBool false) ].
Proof.
  intros w it.
  apply (click_flips_shown_value (Samples.linux None) w it).
  - apply list_elem_of_further, list_elem_of_further, list_elem_of_here.
  - left. eexists. reflexivity.
Defined.

(** A click on the automatic-copy item over the empty store. *)
Lemma click_unset_autoClipboard_keeps_shown_witness :
  let w := Samples.world ∅ in
  let w' := run (toggleFeature "path.autoClipboard") w in
  config w' !! "path.autoClipboard" = Some (JBool false) /\
  shown (listSettings w') = shown (listSettings w) /\
  last (trace w') = Some (ShowInfo "功能 path.autoClipboard 已禁用" []).
Proof.
  intros w.
  apply (click_unset_autoClipboard_keeps_shown w).
  reflexivity.
Defined.

(** The path command on a symbolic link to a directory (type 66), icons off,
    copy on request and the request declined. *)
Lemma getCurrentFilePath_classifies_by_directory_bit_witness :
  let h := with_fs_stat (Samples.linux None) (fun _ => Some 66) in
  let w := Samples.world {[ "features.getPathEnabled" := JBool true;
                            "path.showIcons" := JBool false;
                            "path.autoClipboard" := JBool false ]} in
  trace (run (getCurrentFilePath h (Some Samples.proj)) w) =
    [FsStat Samples.proj; ShowInfo "文件夹路径: /home/u/proj" ["复制路径"]] /\
  forall ty', Z.testbit ty' 1 = Z.testbit 66 1 ->
    run (getCurrentFilePath (with_fs_stat h (fun _ => Some ty')) (Some Samples.proj)) w =
    run (getCurrentFilePath h (Some Samples.proj)) w.
Proof.
  intros h w.
  apply (getCurrentFilePath_classifies_by_directory_bit h Samples.proj w 66);
    reflexivity.
Defined.

(** The offer accepted: a host whose user picks the copy item. *)
Lemma getCurrentFilePath_copy_policy_witness :
  let h := mkHost "linux" None (fun _ => Some FileType_File)
             (fun _ items => head items) (fun _ => None) (Samples.parent "/"%char) in
  let w := Samples.world {[ "features.getPathEnabled" := JBool true;
                            "path.autoClipboard" := JBool false ]} in
  let r := run (getCurrentFilePath h (Some Samples.a_ts)) w in
  trace r =
    [FsStat Samples.a_ts;
     ShowInfo "📄 文件路径: /home/u/proj/a.ts" ["复制路径"];
     ClipboardWrite "/home/u/proj/a.ts";
     ShowInfo "路径已复制到剪贴板！" []] /\
  clipboard r = Some "/home/u/proj/a.ts".
Proof.
  intros h w.
  apply (getCurrentFilePath_copy_policy h Samples.a_ts w FileType_File false);
    reflexivity.
Defined.

(** Null and zero as feature flags. *)
Lemma commands_gated_on_truthiness_witness :
  let w := Samples.world {[ "features.getPathEnabled" := JNull;
                            "features.openTerminalEnabled" := JNum 0 ]} in
  let h := Samples.linux None in
  run (getCurrentFilePath h (Some Samples.a_ts)) w =
    mkWorld (config w) None [ShowWarning disabled_path_warning] /\
  run (openInExternalTerminal h (Some Samples.a_ts)) w =
    mkWorld (config w) None [ShowWarning disabled_terminal_warning].
Proof.
  intros w h.
  destruct (commands_gated_on_truthiness h (Some Samples.a_ts) w) as [Hp Ht].
  split; [apply Hp | apply Ht]; reflexivity.
Defined.

(** Both commands from the command palette with no editor open. *)
Lemma commands_without_target_warn_witness :
  let w := Samples.world {[ "features.getPathEnabled" := JBool true;
                            "features.openTerminalEnabled" := JBool true ]} in
  let h := Samples.linux None in
  run (getCurrentFilePath h None) w =
    mkWorld (config w) None [ShowWarning "没有打开的文件或选中的文件夹"] /\
  run (openInExternalTerminal h None) w =
    mkWorld (config w) None [ShowWarning "没有选中的文件或文件夹"].
Proof.
  intros w h.
  destruct (commands_without_target_warn h w eq_refl) as [Hp Ht].
  split; [apply Hp | apply Ht]; reflexivity.
Defined.

(** The path command on a path that no longer exists. *)
Lemma getCurrentFilePath_rejected_stat_unreported_witness :
  let w := Samples.world {[ "features.getPathEnabled" := JBool true ]} in
  run (getCurrentFilePath (Samples.linux None) (Some Samples.gone)) w =
  mkWorld (config w) None [FsStat Samples.gone; UnhandledRejection].
Proof.
  intros w.
  apply (getCurrentFilePath_rejected_stat_unreported (Samples.linux None) Samples.gone w);
    reflexivity.
Defined.

(** The terminal command on a directory of the sample Linux file system. *)
Lemma openInExternalTerminal_directory_opens_itself_witness :
  let w := Samples.world {[ "features.openTerminalEnabled" := JBool true;
                            "terminal.linux" := JStr "konsole" ]} in
  let h := Samples.linux None in
  spawned (trace (run (openInExternalTerminal h (Some Samples.proj)) w)) =
    ["konsole --workdir " +:+ dq +:+ "/home/u/proj" +:+ dq] /\
  forall dirname',
    run (openInExternalTerminal (with_dirname h dirname') (Some Samples.proj)) w =
    run (openInExternalTerminal h (Some Samples.proj)) w.
Proof.
  intros w h.
  apply (openInExternalTerminal_directory_opens_itself h (Some Samples.proj)
           Samples.proj w FileType_Directory).
  - reflexivity.
  - left. reflexivity.
  - reflexivity.
  - reflexivity.
Defined.

(** The Linux preference unset, against the same store with gnome-terminal. *)
Lemma buildCommand_unset_as_default_witness :
  buildCommand (Samples.linux None) (<["terminal.linux" := JStr "gnome-terminal"]> ∅)
    "/home/u/proj" =
  buildCommand (Samples.linux None) ∅ "/home/u/proj".
Proof.
  apply (buildCommand_unset_as_default (Samples.linux None) ∅ "/home/u/proj"
           "terminal.linux" "gnome-terminal").
  - apply list_elem_of_further, list_elem_of_here.
  - reflexivity.
Defined.

(** A custom template that names no placeholder. *)
Lemma buildCommand_custom_without_placeholder_witness :
  buildCommand (Samples.linux None)
    {[ "terminal.linux" := JStr "custom"; "terminal.customCommand" := JStr "alacritty" ]}
    "/home/u/proj" = Command "alacritty".
Proof.
  apply (buildCommand_custom_without_placeholder (Samples.linux None) _ "alacritty"
           "/home/u/proj").
  - discriminate.
  - discriminate.
  - reflexivity.
  - reflexivity.
  - discriminate.
  - apply split_first_None. reflexivity.
Defined.

(** A custom template with two placeholders. *)
Lemma buildCommand_custom_fills_leftmost_witness :
  let template := "xterm -e 'cd {path}; ls {path}'" in
  template = "xterm -e 'cd " +:+ "{path}" +:+ "; ls {path}'" /\
  (forall b' a', template = b' +:+ "{path}" +:+ a' ->
                 (String.length "xterm -e 'cd " <= String.length b')%nat) /\
  buildCommand (Samples.linux None)
    {[ "terminal.linux" := JStr "custom"; "terminal.customCommand" := JStr template ]}
    "/home/u/proj" =
  Command ("xterm -e 'cd " +:+ "/home/u/proj" +:+ "; ls {path}'").
Proof.
  intros template.
  apply (buildCommand_custom_fills_leftmost (Samples.linux None) _ template
           "xterm -e 'cd " "; ls {path}'" "/home/u/proj"); reflexivity.
Defined.

(** ** Spawning *)

(** Once a command line is built it is handed to [exec] exactly once and the
    outcome is reported by one notification: the error text when the spawn
    fails, with no second attempt, and the directory opened when it
    succeeds. *)
Theorem openInExternalTerminal_reports_spawn_outcome
    (h : Host) (uri : option Uri) (target : Uri) (w : World) (ty : Z) (command : string) :
  terminal_enabled w ->
  resolves h uri target ->
  fs_stat h target = Some ty ->
  let terminalPath :=
    if Z.testbit ty 1 then fsPath target else dirname h (fsPath target) in
  buildCommand h (config w) terminalPath = Command command ->
  run (openInExternalTerminal h uri) w =
  mkWorld (config w) (clipboard w)
    (trace w ++
       [FsStat target; Exec command;
        match exec_error h command with
        | Some message => ShowError ("无法打开外部终端: " +:+ message)
        | None => ShowInfo ("已在外部终端中打开: " +:+ terminalPath) []
        end]).
Proof.
  intros He Hres Hs terminalPath Hb.
  rewrite (openInExternalTerminal_stat_fulfilled h uri target w He Hres ty Hs).
  rewrite land_Directory.
  replace (if negb (Z.testbit ty 1) then dirname h (fsPath target) else fsPath target)
    with terminalPath by (subst terminalPath; now destruct (Z.testbit ty 1)).
  now rewrite Hb.
Qed.

Lemma strict_eq_str_true (v : JsValue) (lit : string) :
  strict_eq_str v lit = true -> v = JStr lit.
Proof.
  destruct v as [| s | |]; cbn; try discriminate.
  intros H. apply String.eqb_eq in H. now subst.
Qed.

(** Outside the custom terminal every command line is built around the
    directory as it is: the directory appears in it verbatim, with nothing
    escaped. *)
Theorem buildCommand_embeds_directory
    (h : Host) (c : gmap string JsValue) (terminalPath : string) :
  platform h = "win32" \/ platform h = "darwin" \/
  config_get c "terminal.linux" (JStr "gnome-terminal") <> JStr "custom" ->
  exists pre post,
    buildCommand h c terminalPath = Command (pre +:+ terminalPath +:+ post).
Proof.
  intros Hcase. unfold buildCommand.
  destruct (String.eqb_spec (platform h) "win32") as [Hw | Hw].
  { destruct (strict_eq_str _ "wt");
      [exists ("wt -d " +:+ dq), dq; reflexivity |].
    destruct (strict_eq_str _ "cmd");
      [exists ("start cmd /k " +:+ dq +:+ "cd /d " +:+ dq), (dq +:+ dq); reflexivity |].
    destruct (strict_eq_str _ "powershell");
      [exists ("start powershell -NoExit -Command " +:+ dq +:+ "Set-Location '"),
         ("'" +:+ dq); reflexivity |].
    exists ("wt -d " +:+ dq),
      (dq +:+ " || start cmd /k " +:+ dq +:+ "cd /d " +:+ dq +:+ terminalPath +:+ dq +:+ dq).
    reflexivity. }
  destruct (String.eqb_spec (platform h) "darwin") as [Hd | Hd].
  { exists ("open -a Terminal " +:+ dq), dq. reflexivity. }
  destruct Hcase as [Hp | [Hp | Hl]]; [contradiction | contradiction |].
  destruct (strict_eq_str _ "gnome-terminal");
    [exists ("gnome-terminal --working-directory=" +:+ dq), dq; reflexivity |].
  destruct (strict_eq_str _ "xterm");
    [exists ("xterm -e " +:+ dq +:+ "cd '"), ("'; bash" +:+ dq); reflexivity |].
  destruct (strict_eq_str _ "konsole");
    [exists ("konsole --workdir " +:+ dq), dq; reflexivity |].
  destruct (strict_eq_str _ "custom") eqn:Hcustom;
    [apply strict_eq_str_true in Hcustom; contradiction |].
  exists ("gnome-terminal --working-directory=" +:+ dq),
    (dq +:+ " || xterm -e " +:+ dq +:+ "cd '" +:+ terminalPath +:+ "'; bash" +:+ dq +:+
     " || konsole --workdir " +:+ dq +:+ terminalPath +:+ dq).
  reflexivity.
Qed.

(** A spawn that fails on the sample Windows host. *)
Lemma openInExternalTerminal_reports_spawn_outcome_witness :
  let h := mkHost "win32" None (fun _ => Some FileType_File) (fun _ _ => None)
             (fun _ => Some "spawn wt ENOENT") (Samples.parent "\"%char) in
  let w := Samples.world {[ "features.openTerminalEnabled" := JBool true ]} in
  let command := "wt -d " +:+ dq +:+ "C:\proj" +:+ dq in
  run (openInExternalTerminal h (Some Samples.win_a_ts)) w =
  mkWorld (config w) None
    [FsStat Samples.win_a_ts; Exec command; ShowError "无法打开外部终端: spawn wt ENOENT"].
Proof.
  intros h w command.
  apply (openInExternalTerminal_reports_spawn_outcome h (Some Samples.win_a_ts)
           Samples.win_a_ts w FileType_File command).
  - reflexivity.
  - left. reflexivity.
  - reflexivity.
  - reflexivity.
Defined.

(** A directory with a quote in its name, on macOS. *)
Lemma buildCommand_embeds_directory_witness :
  let h := mkHost "darwin" None (fun _ => None) (fun _ _ => None) (fun _ => None)
             (Samples.parent "/"%char) in
  exists pre post,
    buildCommand h ∅ ("/tmp/a" +:+ dq +:+ "b") =
    Command (pre +:+ ("/tmp/a" +:+ dq +:+ "b") +:+ post).
Proof.
  intros h.
  apply (buildCommand_embeds_directory h ∅ ("/tmp/a" +:+ dq +:+ "b")).
  right. left. reflexivity.
Defined.
